(** * Databricks-VSCode: workspace tree items and notebook nodes

    A shallow embedding of
      - [src/databricksApi/workspaces/DatabricksWorkspaceNotebook.ts]
      - [src/vscode/treeviews/workspaces/DatabricksWorkspaceTreeItem.ts]
    together with the pieces of the JavaScript string library and of
    Node's [path] module (POSIX flavour, [path.posix]) that the two classes
    call.

    Layout: strings ([Str]), paths ([fspath]), the shared types and the
    collaborators ([Host]), actions with their trace of events ([Act]), the
    two classes ([TreeItem], [Notebook]) and concrete hosts and nodes
    ([Scenario]); then the facts, class by class.

    An accessor of a notebook node is a function from the node to a value
    and the node afterwards, because [localPathExists] may rebind the
    node's extension mapping.  An [async] method is an action on the trace
    of what the host and the collaborators were asked to do; it completes
    normally or throws, and a promise is known by how it settles. *)

From Stdlib Require Import String Ascii List Bool Arith ZArith Lia.
Import ListNotations.
Local Open Scope list_scope.
Local Open Scope string_scope.

(* ================================================================= *)
(** ** Strings *)

Module Str.

Definition slash : ascii := "/"%char.
Definition newline : string := String (ascii_of_nat 10) "".

Definition is_slash (c : ascii) : bool := Ascii.eqb c slash.

Definition isEmpty (s : string) : bool :=
  match s with "" => true | _ => false end.

Definition nonEmpty (s : string) : bool := negb (isEmpty s).

Fixpoint rev (s : string) : string :=
  match s with
  | "" => ""
  | String c s' => rev s' ++ String c ""
  end.

(** Last character of a string, if any. *)
Fixpoint lastChar (s : string) : option ascii :=
  match s with
  | "" => None
  | String c "" => Some c
  | String _ s' => lastChar s'
  end.

Definition firstChar (s : string) : option ascii :=
  match s with "" => None | String c _ => Some c end.

Fixpoint dropWhile (p : ascii -> bool) (s : string) : string :=
  match s with
  | "" => ""
  | String c s' => if p c then dropWhile p s' else s
  end.

Fixpoint takeWhile (p : ascii -> bool) (s : string) : string :=
  match s with
  | "" => ""
  | String c s' => if p c then String c (takeWhile p s') else ""
  end.

Fixpoint noSlash (s : string) : bool :=
  match s with
  | "" => true
  | String c s' => negb (is_slash c) && noSlash s'
  end.

(** No dollar sign in the string: as a replacement text it stands for
    itself. *)
Fixpoint noDollar (s : string) : bool :=
  match s with
  | "" => true
  | String c s' => negb (Ascii.eqb c "$"%char) && noDollar s'
  end.

(** [String.prototype.indexOf(pat)]: position of the first occurrence. *)
Fixpoint indexOf (pat s : string) : option nat :=
  if prefix pat s then Some 0
  else match s with
       | "" => None
       | String _ s' => option_map S (indexOf pat s')
       end.

Fixpoint noNewline (s : string) : bool :=
  match s with
  | "" => true
  | String c s' => negb (Ascii.eqb c (ascii_of_nat 10)) && noNewline s'
  end.

(** [String.prototype.includes(pat)]. *)
Definition includes (pat s : string) : bool :=
  match indexOf pat s with Some _ => true | None => false end.

Fixpoint skip (n : nat) (s : string) : string :=
  match n, s with
  | 0, _ => s
  | S n', String _ s' => skip n' s'
  | S _, "" => ""
  end.

Fixpoint take (n : nat) (s : string) : string :=
  match n, s with
  | 0, _ => ""
  | S n', String c s' => String c (take n' s')
  | S _, "" => ""
  end.

(** The abstract operation GetSubstitution of ECMAScript for a string
    pattern (no capture groups): in the replacement text, [$$] stands for
    a dollar sign, [$&] for the matched text, [$`] for the text before the
    match and [$'] for the text after it; every other character, a dollar
    sign included, stands for itself. *)
Fixpoint getSubstitution (matched before after templ : string) : string :=
  match templ with
  | "" => ""
  | String c rest =>
      if Ascii.eqb c "$"%char then
        match rest with
        | "" => "$"
        | String d rest' =>
            if Ascii.eqb d "$"%char then
              String "$"%char (getSubstitution matched before after rest')
            else if Ascii.eqb d "&"%char then
              matched ++ getSubstitution matched before after rest'
            else if Ascii.eqb d "`"%char then
              before ++ getSubstitution matched before after rest'
            else if Ascii.eqb d "'"%char then
              after ++ getSubstitution matched before after rest'
            else
              String "$"%char (String d (getSubstitution matched before after rest'))
        end
      else String c (getSubstitution matched before after rest)
  end.

(** [String.prototype.replace(pat, repl)] with a string pattern: only the
    first occurrence of [pat] is replaced. *)
Definition replace (s pat repl : string) : string :=
  match indexOf pat s with
  | None => s
  | Some i =>
      let before := take i s in
      let after := skip (i + String.length pat) s in
      before ++ getSubstitution pat before after repl ++ after
  end.

(** [String.prototype.split(sep)] with a one-character separator. *)
Fixpoint split (sep : ascii) (s : string) : list string :=
  match s with
  | "" => [""]
  | String c s' =>
      if Ascii.eqb c sep then "" :: split sep s'
      else match split sep s' with
           | [] => [String c ""]
           | seg :: segs => String c seg :: segs
           end
  end.

(** [Array.prototype.join(sep)] on strings. *)
Fixpoint intercalate (sep : string) (l : list string) : string :=
  match l with
  | [] => ""
  | [x] => x
  | x :: l' => x ++ sep ++ intercalate sep l'
  end.

End Str.

(* ================================================================= *)
(** ** Node's [path] module, POSIX flavour *)

Module fspath.
Import Str.

(** A path segment that [normalize] drops: empty or a single dot. *)
Definition trivialSeg (seg : string) : bool :=
  (seg =? "") || (seg =? ".").

(** One step of Node's [normalizeString]: [res] is the stack of the
    segments kept so far, innermost first. *)
Definition normalizeStep (allowAboveRoot : bool) (res : list string) (seg : string)
  : list string :=
  if trivialSeg seg then res
  else if seg =? ".." then
    match res with
    | [] => if allowAboveRoot then [".."] else []
    | top :: below =>
        if top =? ".." then (if allowAboveRoot then ".." :: res else res)
        else below
    end
  else seg :: res.

Definition normalizeString (path : string) (allowAboveRoot : bool) : list string :=
  fold_left (normalizeStep allowAboveRoot) (split slash path) [].

Definition isAbsolute (path : string) : bool :=
  match firstChar path with Some c => is_slash c | None => false end.

Definition trailingSeparator (path : string) : bool :=
  match lastChar path with Some c => is_slash c | None => false end.

(** The text of a normalised path, from its stack of segments. *)
Definition render (abs trail : bool) (res : list string) : string :=
  let text := intercalate "/" (List.rev res) in
  if isEmpty text then
    if abs then "/" else if trail then "./" else "."
  else
    (if abs then "/" else "") ++ text ++ (if trail then "/" else "").

(** The shape of the stack of [normalizeString]: slash-free segments, none
    empty or a single dot, with the double dots at the bottom and only
    when the path may rise above its start. *)
Fixpoint wellFormedStack (allowAboveRoot : bool) (res : list string) : Prop :=
  match res with
  | [] => True
  | seg :: below =>
      noSlash seg = true /\
      trivialSeg seg = false /\
      (seg = ".." -> allowAboveRoot = true /\ Forall (fun s => s = "..") below) /\
      wellFormedStack allowAboveRoot below
  end.

(** The segments of a path that [normalize] looks at. *)
Definition significant (path : string) : list string :=
  filter (fun seg => negb (trivialSeg seg)) (split slash path).

Definition normalize (path : string) : string :=
  if isEmpty path then "."
  else
    let abs := isAbsolute path in
    let trail := trailingSeparator path in
    let res := intercalate "/" (List.rev (normalizeString path (negb abs))) in
    if isEmpty res then
      if abs then "/" else if trail then "./" else "."
    else
      (if abs then "/" else "") ++ res ++ (if trail then "/" else "").

(** [path.join(...args)]: the non-empty arguments, joined by a slash and
    normalised. *)
Definition join (args : list string) : string :=
  match filter nonEmpty args with
  | [] => "."
  | parts => normalize (intercalate "/" parts)
  end.

(** [path.basename(path)]: the last segment, trailing slashes ignored. *)
Definition basename (path : string) : string :=
  Str.rev (takeWhile (fun c => negb (is_slash c)) (dropWhile is_slash (Str.rev path))).

(** [path.dirname(path)].  Node scans the characters at positions
    [length - 1 .. 1] from the right: trailing slashes are skipped, then the
    last segment, and the slash found next (at position [end]) ends the
    directory part. *)
Definition dirname (path : string) : string :=
  match path with
  | "" => "."
  | String c0 rest =>
      let hasRoot := is_slash c0 in
      let scanned :=
        dropWhile (fun c => negb (is_slash c)) (dropWhile is_slash (Str.rev rest)) in
      match scanned with
      | "" => if hasRoot then "/" else "."
      | String _ before =>
          if hasRoot && isEmpty before then "//"
          else String c0 (Str.rev before)
      end
  end.

(** A segment that [normalize] keeps as it is: no slash, not empty, not
    one or two dots. *)
Definition plainSeg (seg : string) : bool :=
  noSlash seg && negb (trivialSeg seg) && negb (seg =? "..").

(** No two slashes in a row. *)
Fixpoint noDoubleSlash (s : string) : bool :=
  match s with
  | "" => true
  | String a rest =>
      match rest with
      | "" => true
      | String b _ => negb (is_slash a && is_slash b)
      end && noDoubleSlash rest
  end.

(** What [join] puts before a plain last segment that follows [dir]. *)
Definition dirPrefix (dir : string) : string :=
  let abs := isAbsolute dir in
  (if abs then "/" else "") ++
  match normalizeString dir (negb abs) with
  | [] => ""
  | res => intercalate "/" (List.rev res) ++ "/"
  end.

End fspath.

(* ================================================================= *)
(** ** Types shared by the two classes *)

(** [WorkspaceItemLanguage], [WorkspaceItemType] and
    [WorkspaceItemExportFormat] are unions of string literals: at run time
    their values are strings. *)
Definition WorkspaceItemLanguage := string.
Definition WorkspaceItemType := string.
Definition WorkspaceItemExportFormat := string.

(** What a JavaScript [throw] carries, as the text that [`${error}`]
    prints. *)
Definition Error := string.

(** The members of [LanguageFileExtensionMapper] that the notebook class
    reads. *)
Module LanguageFileExtensionMapper.
Record t : Type := make {
  language : WorkspaceItemLanguage;
  extension : string;
  exportFormat : WorkspaceItemExportFormat;
  isNotebook : bool
}.
End LanguageFileExtensionMapper.

(** A promise once settled. *)
Inductive Settled (A : Type) : Type :=
| Fulfilled (a : A)
| Rejected (e : Error).
Arguments Fulfilled {A} a.
Arguments Rejected {A} e.

(** What calling a collaborator that returns a promise does: it throws on
    the spot, or hands back a promise that settles later. *)
Inductive CallResult (A : Type) : Type :=
| Threw (e : Error)
| Promise (p : Settled A).
Arguments Threw {A} e.
Arguments Promise {A} p.

(** Configuration and collaborators of the two classes, none of them among
    the sources: [ThisExtension.rootPath], the active connection's
    [localSyncFolder] and [allowAllSupportedFileExtensions],
    [DatabricksConnectionManager.WorkspaceSubFolder],
    [ThisExtension.RefreshAfterUpDownload] and
    [ThisExtension.allLanguageFileExtensions], the two factories of
    [LanguageFileExtensionMapper], [fs.existsSync], [Helper.openTempFile]
    and the two calls of [DatabricksApiService].  The file system is what
    [existsSync] answers; it does not change while an accessor runs. *)
Record Host : Type := mkHost {
  rootPath : string;
  localSyncFolder : string;
  WorkspaceSubFolder : string;
  allowAllSupportedFileExtensions : bool;
  RefreshAfterUpDownload : bool;
  allLanguageFileExtensions : WorkspaceItemLanguage -> list string;
  fromLanguage : WorkspaceItemLanguage -> LanguageFileExtensionMapper.t;
  fromExtension : string -> LanguageFileExtensionMapper.t;
  existsSync : string -> bool;
  openTempFile : string -> string -> bool -> CallResult string;
  downloadWorkspaceItem :
    string -> string -> WorkspaceItemExportFormat -> CallResult unit;
  uploadWorkspaceItem :
    string -> string -> WorkspaceItemLanguage -> bool ->
    WorkspaceItemExportFormat -> CallResult unit
}.

(** What the host and the collaborators are asked to do, in order. *)
Inductive Event : Type :=
| ShowInformationMessage (msg : string)
| ShowWarningMessage (msg : string)
| ShowErrorMessage (msg : string)
| ExecuteCommand (command : string) (arg : bool)
| Wait (ms : nat)
| OpenTempFile (dir name : string) (open : bool)
| DownloadWorkspaceItem (path localPath : string) (format : WorkspaceItemExportFormat)
| UploadWorkspaceItem (localPath path : string) (lang : WorkspaceItemLanguage)
    (overwrite : bool) (format : WorkspaceItemExportFormat)
| ShowDiff (onlineFile : option string) (localFile : string).

(** What [open] asks of the host: what [download] asks, and the document
    to open. *)
Inductive ShellEvent : Type :=
| Did (ev : Event)
| OpenTextDocument (uri : string).

(** [iDatabricksWorkspaceItem], as [fromInterface] reads it. *)
(** The calls of [DatabricksApiService.downloadWorkspaceItem] in a trace. *)
Definition isFetch (ev : Event) : bool :=
  match ev with
  | DownloadWorkspaceItem _ _ _ => true
  | _ => false
  end.

Module iDatabricksWorkspaceItem.
Record t : Type := make {
  path : string;
  object_id : Z;
  language : WorkspaceItemLanguage
}.
End iDatabricksWorkspaceItem.

(* ================================================================= *)
(** ** Actions: a trace of events and JavaScript completions *)

Module Act.

Inductive Completion (A : Type) : Type :=
| Normal (a : A)
| Throw (e : Error).
Arguments Normal {A} a.
Arguments Throw {A} e.

Definition Action (A : Type) : Type := list Event -> Completion A * list Event.

Definition ret {A} (a : A) : Action A := fun tr => (Normal a, tr).

Definition bind {A B} (c : Action A) (k : A -> Action B) : Action B :=
  fun tr =>
    match c tr with
    | (Normal a, tr') => k a tr'
    | (Throw e, tr') => (Throw e, tr')
    end.

Definition throw {A} (e : Error) : Action A := fun tr => (Throw e, tr).

Definition emit (ev : Event) : Action unit := fun tr => (Normal tt, (tr ++ [ev])%list).

(** [try { body } catch (error) { handler }]. *)
Definition tryCatch {A} (body : Action A) (handler : Error -> Action A) : Action A :=
  fun tr =>
    match body tr with
    | (Normal a, tr') => (Normal a, tr')
    | (Throw e, tr') => handler e tr'
    end.

(** Calling a collaborator: the call is recorded; a synchronous throw
    propagates, otherwise the caller holds the promise. *)
Definition call {A} (ev : Event) (r : CallResult A) : Action (Settled A) :=
  fun tr =>
    match r with
    | Threw e => (Throw e, (tr ++ [ev])%list)
    | Promise p => (Normal p, (tr ++ [ev])%list)
    end.

(** [await p]: the value of a fulfilled promise; a rejected one throws. *)
Definition await {A} (p : Settled A) : Action A :=
  match p with
  | Fulfilled a => ret a
  | Rejected e => throw e
  end.

End Act.

Notation "x <- c ;; k" := (Act.bind c (fun x => k))
  (at level 61, c at next level, right associativity).
Notation "c ;;; k" := (Act.bind c (fun _ => k))
  (at level 61, right associativity).

(* ================================================================= *)
(** ** DatabricksWorkspaceTreeItem *)

Module TreeItem.
Import Act.

#[warnings="-register-all"] Inductive DatabricksWorkspaceTreeItem : Type :=
| mkTreeItem (_path : string)
             (_object_type : option WorkspaceItemType)
             (_object_id : Z)
             (_parent : option DatabricksWorkspaceTreeItem).

Definition path (t : DatabricksWorkspaceTreeItem) : string :=
  match t with mkTreeItem p _ _ _ => p end.

Definition object_type (t : DatabricksWorkspaceTreeItem) : WorkspaceItemType :=
  match t with
  | mkTreeItem _ None _ _ => "DIRECTORY"
  | mkTreeItem _ (Some ty) _ _ => if Str.isEmpty ty then "DIRECTORY" else ty
  end.

Definition object_id (t : DatabricksWorkspaceTreeItem) : Z :=
  match t with mkTreeItem _ _ i _ => i end.

Definition parent (t : DatabricksWorkspaceTreeItem) : option DatabricksWorkspaceTreeItem :=
  match t with mkTreeItem _ _ _ p => p end.

(** [this.path.split('/').pop()]. *)
Definition label (t : DatabricksWorkspaceTreeItem) : string :=
  List.last (Str.split Str.slash (path t)) "".

Definition notImplemented : string :=
  "getChildren is not implemented! Please overwrite in derived class!".

(** [getChildren()]: the result [None] is JavaScript's [undefined]. *)
Definition getChildren (t : DatabricksWorkspaceTreeItem)
  : Action (option (list DatabricksWorkspaceTreeItem)) :=
  emit (ShowErrorMessage notImplemented) ;;;
  ret None.

End TreeItem.

(* ================================================================= *)
(** ** DatabricksWorkspaceNotebook *)

Module Notebook.
Import Act.

Inductive Source : Type := Online | Local.

(** The fields of a notebook node.  [_languageFileExtension] is [None]
    while it is [undefined]; [iconPath] holds the light and the dark icon,
    [None] for [null]. *)
Record DatabricksWorkspaceNotebook : Type := mkNotebook {
  _path : string;
  _object_id : Z;
  _language : WorkspaceItemLanguage;
  _isInitialized : bool;
  _onlinePathExists : bool;
  _languageFileExtension : option LanguageFileExtensionMapper.t;
  iconPath : option string * option string
}.

Definition set_languageFileExtension
  (m : LanguageFileExtensionMapper.t) (n : DatabricksWorkspaceNotebook)
  : DatabricksWorkspaceNotebook :=
  {| _path := _path n;
     _object_id := _object_id n;
     _language := _language n;
     _isInitialized := _isInitialized n;
     _onlinePathExists := _onlinePathExists n;
     _languageFileExtension := Some m;
     iconPath := iconPath n |}.

Definition set_iconPath
  (icons : option string * option string) (n : DatabricksWorkspaceNotebook)
  : DatabricksWorkspaceNotebook :=
  {| _path := _path n;
     _object_id := _object_id n;
     _language := _language n;
     _isInitialized := _isInitialized n;
     _onlinePathExists := _onlinePathExists n;
     _languageFileExtension := _languageFileExtension n;
     iconPath := icons |}.

(** Reading an accessor of a node: a value and the node afterwards. *)
Definition Read (A : Type) : Type :=
  DatabricksWorkspaceNotebook -> A * DatabricksWorkspaceNotebook.

Definition pure {A} (f : DatabricksWorkspaceNotebook -> A) : Read A :=
  fun n => (f n, n).

Definition const {A} (a : A) : Read A := fun n => (a, n).

Definition seq {A B} (r : Read A) (k : A -> Read B) : Read B :=
  fun n => let (a, n') := r n in k a n'.

(** [a && b] on accessors: [b] is read only when [a] is true. *)
Definition andR (a b : Read bool) : Read bool :=
  seq a (fun x => if x then b else const false).

(** [!a]. *)
Definition notR (a : Read bool) : Read bool :=
  seq a (fun x => const (negb x)).

Section Node.

Variable E : Host.

Definition path (n : DatabricksWorkspaceNotebook) : string := _path n.

(** [path.split('/').pop()], set by the constructor. *)
Definition label (n : DatabricksWorkspaceNotebook) : string :=
  List.last (Str.split Str.slash (_path n)) "".

Definition onlinePathExists (n : DatabricksWorkspaceNotebook) : bool :=
  _onlinePathExists n.

Definition localFileExtension (n : DatabricksWorkspaceNotebook) : string :=
  match _languageFileExtension n with
  | None => LanguageFileExtensionMapper.extension (fromLanguage E (_language n))
  | Some m => LanguageFileExtensionMapper.extension m
  end.

Definition localFolderPath (n : DatabricksWorkspaceNotebook) : string :=
  fspath.join [localSyncFolder E; WorkspaceSubFolder E; fspath.dirname (path n)].

Definition localFilePath (n : DatabricksWorkspaceNotebook) : string :=
  fspath.join [localFolderPath n; fspath.basename (path n) ++ localFileExtension n].

(** The path probed for the extension [ext] in [localPathExists]. *)
Definition pathToCheck (n : DatabricksWorkspaceNotebook) (ext : string) : string :=
  Str.replace (localFilePath n) (localFileExtension n) ext.

(** The [for (let ext of ...)] loop of [localPathExists]. *)
Fixpoint probe (exts : list string) : Read bool :=
  fun n =>
    match exts with
    | [] => (false, n)
    | ext :: exts' =>
        if existsSync E (pathToCheck n ext)
        then (true, set_languageFileExtension (fromExtension E ext) n)
        else probe exts' n
    end.

Definition localPathExists : Read bool :=
  fun n =>
    if allowAllSupportedFileExtensions E
    then probe (allLanguageFileExtensions E (_language n)) n
    else (existsSync E (localFilePath n), n).

Definition tooltip : Read string :=
  let tooltip0 := fun n => path n ++ Str.newline in
  seq (pure tooltip0) (fun t0 =>
  seq (andR (pure onlinePathExists) (notR localPathExists)) (fun c1 =>
  let t1 := if c1 then t0 ++ "[Online only]" ++ Str.newline else t0 in
  seq (andR (notR (pure onlinePathExists)) localPathExists) (fun c2 =>
  let t2 := if c2 then t1 ++ "[Offline only]" ++ Str.newline else t1 in
  seq (andR (pure onlinePathExists) localPathExists) (fun c3 =>
  let t3 := if c3 then t2 ++ "[Synced]" ++ Str.newline else t2 in
  const t3)))).

(** [contextValue]: falling off the end of the getter gives [undefined],
    here [None]. *)
Definition contextValue : Read (option string) :=
  seq (andR localPathExists (pure onlinePathExists)) (fun c1 =>
  if c1 then const (Some "CAN_SYNC") else
  seq (andR (notR localPathExists) (pure onlinePathExists)) (fun c2 =>
  if c2 then const (Some "CAN_DOWNLOAD") else
  seq (andR localPathExists (notR (pure onlinePathExists))) (fun c3 =>
  if c3 then const (Some "CAN_UPLOAD") else
  const None))).

(** [getIconPath(theme)]: [null] before the constructor has set
    [_isInitialized]. *)
Definition getIconPath (theme : string) : Read (option string) :=
  fun n =>
    if negb (_isInitialized n) then (None, n)
    else
      seq (andR localPathExists (notR (pure onlinePathExists))) (fun c1 =>
      let sync_state1 := if c1 then "_OFFLINE" else "" in
      seq (andR (notR localPathExists) (pure onlinePathExists)) (fun c2 =>
      let sync_state2 := if c2 then "_ONLINE" else sync_state1 in
      const (Some (fspath.join [rootPath E; "resources"; theme; "workspace";
                                "notebook" ++ sync_state2 ++ ".png"])))) n.

(** The constructor's last parameter: a language or a mapper. *)
Inductive LanguageOrMapper : Type :=
| ALanguage (l : WorkspaceItemLanguage)
| AMapper (m : LanguageFileExtensionMapper.t).

(** [new DatabricksWorkspaceNotebook(path, object_id, source, language)]:
    the fields are set, and then the two icons are computed, which reads
    [localPathExists] on the node under construction. *)
Definition constructor (path : string) (object_id : Z) (source : Source)
  (lang : LanguageOrMapper) : DatabricksWorkspaceNotebook :=
  let n0 :=
    {| _path := path;
       _object_id := object_id;
       _language :=
         match lang with
         | ALanguage l => l
         | AMapper m => LanguageFileExtensionMapper.language m
         end;
       _isInitialized := true;
       _onlinePathExists := match source with Local => false | Online => true end;
       _languageFileExtension :=
         Some (match lang with ALanguage l => fromLanguage E l | AMapper m => m end);
       iconPath := (None, None) |} in
  let (light, n1) := getIconPath "light" n0 in
  let (dark, n2) := getIconPath "dark" n1 in
  set_iconPath (light, dark) n2.

(** [this._languageFileExtension.exportFormat]: reading a member of
    [undefined] throws a TypeError. *)
Definition typeError (member : string) : Error :=
  "TypeError: Cannot read properties of undefined (reading '" ++ member ++ "')".

Definition exportFormat (n : DatabricksWorkspaceNotebook)
  : Action WorkspaceItemExportFormat :=
  match _languageFileExtension n with
  | None => throw (typeError "exportFormat")
  | Some m => ret (LanguageFileExtensionMapper.exportFormat m)
  end.

Definition refresh : Action unit :=
  emit (Wait 500) ;;;
  emit (ExecuteCommand "databricksWorkspace.refresh" false).

(** [download(asTempFile)]: the result [None] is [undefined]. *)
Definition download (n : DatabricksWorkspaceNotebook) (asTempFile : bool)
  : Action (option string) :=
  tryCatch
    (localPath <-
       (if asTempFile then
          p <- call (OpenTempFile "" (label n ++ "-ONLINE") false)
                    (openTempFile E "" (label n ++ "-ONLINE") false) ;;
          tmp <- await p ;;
          ret (tmp ++ localFileExtension n)
        else ret (localFilePath n)) ;;
     format <- exportFormat n ;;
     p <- call (DownloadWorkspaceItem (path n) localPath format)
               (downloadWorkspaceItem E (path n) localPath format) ;;
     await p ;;;
     emit (ShowInformationMessage ("Download of item " ++ _path n ++ ") finished!")) ;;;
     (if RefreshAfterUpDownload E && negb asTempFile then refresh else ret tt) ;;;
     ret (Some localPath))
    (fun error =>
       emit (ShowErrorMessage ("ERROR: " ++ error)) ;;;
       ret None).

(** [upload()]: the promise that [uploadWorkspaceItem] returns is stored in
    [response] and never awaited. *)
Definition upload (n : DatabricksWorkspaceNotebook) : Action unit :=
  tryCatch
    (format <- exportFormat n ;;
     call (UploadWorkspaceItem (localFilePath n) (path n) (_language n) true format)
          (uploadWorkspaceItem E (localFilePath n) (path n) (_language n) true format) ;;;
     emit (ShowInformationMessage ("Upload of item " ++ path n ++ ") finished!")) ;;;
     (if RefreshAfterUpDownload E then refresh else ret tt))
    (fun error =>
       emit (ShowErrorMessage ("ERROR: " ++ error))).

Definition diffNotSupported : string :=
  "DIFF is currently not supported when using notebooks. You can change the export formats to work around this issue!".

Definition compare (n : DatabricksWorkspaceNotebook) : Action unit :=
  match _languageFileExtension n with
  | None => throw (typeError "isNotebook")
  | Some m =>
      if LanguageFileExtensionMapper.isNotebook m then
        emit (ShowErrorMessage diffNotSupported) ;;;
        ret tt
      else
        onlineFileTempPath <- download n true ;;
        emit (ShowDiff onlineFileTempPath (localFilePath n))
  end.

(** What reading an accessor may do to a node: nothing, or rebind its
    extension mapping to the mapper of an extension recognised for its
    language. *)
Definition rebound (n n' : DatabricksWorkspaceNotebook) : Prop :=
  n' = n \/
  exists ext,
    In ext (allLanguageFileExtensions E (_language n)) /\
    n' = set_languageFileExtension (fromExtension E ext) n.

(** An accessor that only rebinds. *)
Definition rebinding {A} (r : Read A) : Prop :=
  forall n, rebound n (snd (r n)).

(** [description]: shown next to the label. *)
Definition description (n : DatabricksWorkspaceNotebook) : string :=
  "[" ++ _language n ++ "] - " ++ path n.

(** [localFileUri]: the text handed to [vscode.Uri.parse]. *)
Definition localFileUri (n : DatabricksWorkspaceNotebook) : string :=
  Str.replace ("file:///" ++ localFilePath n) "////" "///".

(** [fromInterface(item)]. *)
Definition fromInterface (item : iDatabricksWorkspaceItem.t)
  : DatabricksWorkspaceNotebook :=
  constructor (iDatabricksWorkspaceItem.path item)
              (iDatabricksWorkspaceItem.object_id item)
              Online
              (ALanguage (iDatabricksWorkspaceItem.language item)).

Definition cachedFileWarning : string :=
  "Opening local cached file. To open most recent file from Databricks, please manually download it first!".

(** [open(showWarning)]: the node is read, then the events are added to the
    trace.  The result is the completion, the node afterwards and the
    trace. *)
Definition open (showWarning : bool) (n : DatabricksWorkspaceNotebook)
  (tr : list ShellEvent)
  : Completion unit * DatabricksWorkspaceNotebook * list ShellEvent :=
  let (localExists, n1) := localPathExists n in
  let (c, tr1) :=
    if negb localExists then
      let (r, evs) := download n1 false [] in
      (match r with Normal _ => Normal tt | Throw e => Throw e end,
       (tr ++ map Did evs)%list)
    else if showWarning then
      (Normal tt, (tr ++ [Did (ShowWarningMessage cachedFileWarning)])%list)
    else (Normal tt, tr) in
  match c with
  | Normal _ => (Normal tt, n1, (tr1 ++ [OpenTextDocument (localFileUri n1)])%list)
  | Throw e => (Throw e, n1, tr1)
  end.

(** [doubleClick()]. *)
Definition doubleClick (n : DatabricksWorkspaceNotebook) (tr : list ShellEvent)
  : Completion unit * DatabricksWorkspaceNotebook * list ShellEvent :=
  open true n tr.

End Node.
End Notebook.

(* ================================================================= *)
(** ** Concrete hosts and nodes *)

Module Scenario.
Import Notebook.

(** Modelled from the spec: [LanguageFileExtensionMapper.fromExtension],
    which is not among the sources.  The mapper of an extension carries that
    extension; [.ipynb] is the packaged notebook format, anything else is
    exported as source. *)
Definition mapperOf (ext : string) : LanguageFileExtensionMapper.t :=
  {| LanguageFileExtensionMapper.language := "PYTHON";
     LanguageFileExtensionMapper.extension := ext;
     LanguageFileExtensionMapper.exportFormat :=
       if ext =? ".ipynb" then "JUPYTER" else "SOURCE";
     LanguageFileExtensionMapper.isNotebook := ext =? ".ipynb" |}.

(** Modelled from the spec: a configuration and an extension table, which
    are not among the sources.  The sync folder is [/sync], the workspace
    subfolder [Workspace], [files] are the files on disk, the canonical
    extension of every language is [.py], and [.py] and [.ipynb] are the
    recognised extensions, in this order. *)
Definition host (allowAll : bool) (files : list string)
  (down up : CallResult unit) : Host :=
  {| rootPath := "/ext";
     localSyncFolder := "/sync";
     WorkspaceSubFolder := "Workspace";
     allowAllSupportedFileExtensions := allowAll;
     RefreshAfterUpDownload := true;
     allLanguageFileExtensions := fun _ => [".py"; ".ipynb"];
     fromLanguage := fun _ => mapperOf ".py";
     fromExtension := mapperOf;
     existsSync := fun p => existsb (String.eqb p) files;
     openTempFile := fun _ name _ => Promise (Fulfilled ("/tmp/" ++ name));
     downloadWorkspaceItem := fun _ _ _ => down;
     uploadWorkspaceItem := fun _ _ _ _ _ => up |}.

Definition ok : CallResult unit := Promise (Fulfilled tt).
Definition failing (e : Error) : CallResult unit := Promise (Rejected e).

Definition notebook (E : Host) (p : string) (source : Source) : DatabricksWorkspaceNotebook :=
  constructor E p 7%Z source (ALanguage "PYTHON").

(** Only the canonical extension counts; the notebook [/Users/a/nb] is on
    disk as [nb.py]; uploads are rejected with [HTTP 403]. *)
Definition hostCanonical : Host :=
  host false ["/sync/Workspace/Users/a/nb.py"] ok (failing "HTTP 403").

(** Every recognised extension counts; the notebook [/Users/a/nb] is on
    disk as [nb.ipynb]. *)
Definition hostAnyExtension : Host :=
  host true ["/sync/Workspace/Users/a/nb.ipynb"] ok ok.

(** Every recognised extension counts; the workspace has the folders
    [proj.py] and [proj.ipynb], each with a notebook [nb] that is on disk
    as [nb.py]. *)
Definition hostBothFolders : Host :=
  host true ["/sync/Workspace/proj.py/nb.py"; "/sync/Workspace/proj.ipynb/nb.py"] ok ok.

(** The same, once [proj.py/nb.py] has been deleted from the disk. *)
Definition hostSiblingFolder : Host :=
  host true ["/sync/Workspace/proj.ipynb/nb.py"] ok ok.

(** Every recognised extension counts; nothing on disk yet. *)
Definition hostNothingYet : Host := host true [] ok ok.

(** Nothing on disk. *)
Definition hostNoFiles : Host := host false [] ok ok.

Definition userNotebook (E : Host) : DatabricksWorkspaceNotebook :=
  notebook E "/Users/a/nb" Online.

Definition packagedNotebook (E : Host) : DatabricksWorkspaceNotebook :=
  set_languageFileExtension (mapperOf ".ipynb") (userNotebook E).

(** The node of the local file [proj.py/nb.py], built while the file was
    on disk. *)
Definition localProjNotebook : DatabricksWorkspaceNotebook :=
  notebook hostBothFolders "/proj.py/nb" Local.

(** The node of the online notebook [/proj.py/nb], built before anything
    was on disk. *)
Definition onlineProjNotebook : DatabricksWorkspaceNotebook :=
  notebook hostNothingYet "/proj.py/nb" Online.

Definition bracketNotebook : DatabricksWorkspaceNotebook :=
  notebook hostNoFiles "/Users/a/[Synced] report" Online.

Definition slashNotebook : DatabricksWorkspaceNotebook :=
  notebook hostNoFiles "/a/b/" Online.

(** As [hostCanonical], with every fetch rejected with [HTTP 500]. *)
Definition hostFetchRejected : Host :=
  host false ["/sync/Workspace/Users/a/nb.py"] (failing "HTTP 500") ok.

(** As [hostCanonical], with no temporary file to be had. *)
Definition hostNoTempFile : Host :=
  {| rootPath := rootPath hostCanonical;
     localSyncFolder := localSyncFolder hostCanonical;
     WorkspaceSubFolder := WorkspaceSubFolder hostCanonical;
     allowAllSupportedFileExtensions := allowAllSupportedFileExtensions hostCanonical;
     RefreshAfterUpDownload := RefreshAfterUpDownload hostCanonical;
     allLanguageFileExtensions := allLanguageFileExtensions hostCanonical;
     fromLanguage := fromLanguage hostCanonical;
     fromExtension := fromExtension hostCanonical;
     existsSync := existsSync hostCanonical;
     openTempFile := fun _ _ _ => Promise (Rejected "EACCES");
     downloadWorkspaceItem := downloadWorkspaceItem hostCanonical;
     uploadWorkspaceItem := uploadWorkspaceItem hostCanonical |}.

End Scenario.

(** Two traces are equal up to the bracketing of their appends. *)
Ltac trace_eq := simpl; repeat rewrite <- app_assoc; simpl; reflexivity.

(* ================================================================= *)
(** ** Facts about strings *)

Section StrFacts.
Import Str.

Lemma append_nil_r (s : string) : s ++ "" = s.
Proof.
  induction s as [|c s IH]; simpl; [reflexivity | rewrite IH; reflexivity].
Qed.

Lemma append_assoc (a b c : string) : (a ++ b) ++ c = a ++ (b ++ c).
Proof.
  induction a as [|x a IH]; simpl; [reflexivity | rewrite IH; reflexivity].
Qed.

Lemma length_append (a b : string) :
  String.length (a ++ b) = String.length a + String.length b.
Proof.
  induction a as [|x a IH]; simpl; [reflexivity | rewrite IH; reflexivity].
Qed.

Lemma prefix_append (p t : string) : prefix p (p ++ t) = true.
Proof.
  induction p as [|c p IH]; simpl.
  - destruct t; reflexivity.
  - destruct (ascii_dec c c) as [_|Hne]; [exact IH | contradiction].
Qed.

Lemma skip_length_append (a b : string) : skip (String.length a) (a ++ b) = b.
Proof.
  induction a as [|x a IH]; simpl; [reflexivity | exact IH].
Qed.

Lemma take_length_append (a b : string) : take (String.length a) (a ++ b) = a.
Proof.
  induction a as [|x a IH]; simpl; [reflexivity | rewrite IH; reflexivity].
Qed.

Lemma skip_add (i j : nat) (s : string) : skip (i + j) s = skip j (skip i s).
Proof.
  revert s. induction i as [|i IH]; intros s; simpl.
  - reflexivity.
  - destruct s as [|c s]; [destruct j; reflexivity | apply IH].
Qed.

(** [indexOf] finds the first position at which the pattern starts. *)
Lemma indexOf_first (pat : string) (i : nat) (s : string) :
  i <= String.length s ->
  prefix pat (skip i s) = true ->
  (forall j, j < i -> prefix pat (skip j s) = false) ->
  indexOf pat s = Some i.
Proof.
  revert s. induction i as [|i IH]; intros s Hlen Hocc Hfirst.
  - simpl in Hocc. destruct s; cbn [indexOf]; rewrite Hocc; reflexivity.
  - destruct s as [|c s]; [simpl in Hlen; lia|].
    pose proof (Hfirst 0 (Nat.lt_0_succ i)) as H0. cbn [skip] in H0.
    cbn [indexOf]. rewrite H0.
    rewrite (IH s); [reflexivity | simpl in Hlen; lia | exact Hocc |].
    intros j Hj. apply (Hfirst (S j)). lia.
Qed.

Lemma indexOf_Some (pat s : string) (i : nat) :
  indexOf pat s = Some i ->
  i <= String.length s /\
  prefix pat (skip i s) = true /\
  (forall j, j < i -> prefix pat (skip j s) = false).
Proof.
  revert i. induction s as [|c s IH]; intros i H.
  - cbn [indexOf] in H. destruct (prefix pat "") eqn:P; [|discriminate].
    inversion H; subst. repeat split; [simpl; lia | exact P | intros j Hj; lia].
  - cbn [indexOf] in H. destruct (prefix pat (String c s)) eqn:P.
    + inversion H; subst. repeat split; [lia | exact P | intros j Hj; lia].
    + destruct (indexOf pat s) as [k|] eqn:K; [|discriminate].
      inversion H; subst. destruct (IH k eq_refl) as (Hl & Ho & Hf).
      repeat split; [simpl; lia | exact Ho |].
      intros [|j] Hj; [exact P | apply Hf; lia].
Qed.

Lemma indexOf_None (pat s : string) :
  (forall j, j <= String.length s -> prefix pat (skip j s) = false) ->
  indexOf pat s = None.
Proof.
  induction s as [|c s IH]; intros H.
  - cbn [indexOf]. pose proof (H 0 (Nat.le_refl 0)) as H0. cbn [skip] in H0.
    rewrite H0. reflexivity.
  - cbn [indexOf]. pose proof (H 0 (Nat.le_0_l _)) as H0. cbn [skip] in H0.
    rewrite H0, IH; [reflexivity|].
    intros j Hj. apply (H (S j)). simpl. lia.
Qed.

Lemma getSubstitution_plain (matched before after templ : string) :
  noDollar templ = true ->
  getSubstitution matched before after templ = templ.
Proof.
  induction templ as [|c templ IH]; intros H; simpl.
  - reflexivity.
  - simpl in H. apply andb_true_iff in H. destruct H as [Hc Ht].
    apply negb_true_iff in Hc. rewrite Hc, (IH Ht). reflexivity.
Qed.

(** Replacing by a text without dollar signs, at the first occurrence. *)
Lemma replace_first (s pat repl : string) (i : nat) :
  noDollar repl = true ->
  i <= String.length s ->
  prefix pat (skip i s) = true ->
  (forall j, j < i -> prefix pat (skip j s) = false) ->
  replace s pat repl = take i s ++ repl ++ skip (i + String.length pat) s.
Proof.
  intros Hplain Hlen Hocc Hfirst. unfold replace.
  rewrite (indexOf_first pat i s Hlen Hocc Hfirst).
  rewrite getSubstitution_plain by exact Hplain. reflexivity.
Qed.

Lemma replace_absent (s pat repl : string) :
  (forall j, j <= String.length s -> prefix pat (skip j s) = false) ->
  replace s pat repl = s.
Proof.
  intros H. unfold replace. rewrite (indexOf_None pat s H). reflexivity.
Qed.

(** When the pattern ends the string and starts nowhere before, the
    replacement swaps the ending. *)
Lemma replace_trailing (stem pat repl : string) :
  noDollar repl = true ->
  (forall j, j < String.length stem -> prefix pat (skip j (stem ++ pat)) = false) ->
  replace (stem ++ pat) pat repl = stem ++ repl.
Proof.
  intros Hplain Hfirst.
  rewrite (replace_first (stem ++ pat) pat repl (String.length stem) Hplain).
  - rewrite take_length_append, skip_add, skip_length_append.
    replace (skip (String.length pat) pat) with "".
    + rewrite append_nil_r. reflexivity.
    + rewrite <- (append_nil_r pat) at 2. rewrite skip_length_append. reflexivity.
  - rewrite length_append. lia.
  - rewrite skip_length_append. rewrite <- (append_nil_r pat) at 2.
    apply prefix_append.
  - exact Hfirst.
Qed.

(** A text without line breaks starts inside the first line or not at
    all. *)
Lemma prefix_before_newline (m a b : string) :
  noNewline m = true ->
  m <> "" ->
  prefix m (a ++ newline ++ b) = prefix m a.
Proof.
  revert a. induction m as [|c m IH]; intros a Hnl Hne; [contradiction|].
  simpl in Hnl. apply andb_true_iff in Hnl. destruct Hnl as [Hc Hm].
  apply negb_true_iff in Hc. apply Ascii.eqb_neq in Hc.
  destruct a as [|d a]; simpl.
  - destruct (ascii_dec c (ascii_of_nat 10)) as [Heq|_]; [contradiction | reflexivity].
  - destruct (ascii_dec c d) as [_|_]; [|reflexivity].
    destruct m as [|c' m'].
    + destruct (a ++ newline ++ b); destruct a; reflexivity.
    + apply IH; [exact Hm | discriminate].
Qed.

Lemma includes_nil (m : string) : m <> "" -> includes m "" = false.
Proof.
  destruct m; [contradiction | reflexivity].
Qed.

Lemma includes_cons (m : string) (c : ascii) (s : string) :
  includes m (String c s) = prefix m (String c s) || includes m s.
Proof.
  unfold includes. cbn [indexOf].
  destruct (prefix m (String c s)); [reflexivity|].
  destruct (indexOf m s); reflexivity.
Qed.

(** A text without line breaks occurs in two lines exactly when it occurs
    in one of them. *)
Lemma includes_lines (m a b : string) :
  noNewline m = true ->
  m <> "" ->
  includes m (a ++ newline ++ b) = includes m a || includes m b.
Proof.
  intros Hnl Hne. induction a as [|c a IH].
  - rewrite (includes_nil m Hne). simpl append.
    rewrite includes_cons.
    change (String (ascii_of_nat 10) b) with ("" ++ newline ++ b).
    rewrite (prefix_before_newline m "" b Hnl Hne).
    destruct m; [contradiction | reflexivity].
  - change (String c a ++ newline ++ b) with (String c (a ++ newline ++ b)).
    rewrite !includes_cons, IH.
    change (String c (a ++ newline ++ b)) with (String c a ++ newline ++ b).
    rewrite (prefix_before_newline m (String c a) b Hnl Hne).
    rewrite orb_assoc. reflexivity.
Qed.

End StrFacts.

(* ================================================================= *)
(** ** The generic tree item *)

Section TreeItemFacts.
Import Act TreeItem.

(** C8.  On a generic workspace tree item, [getChildren()] shows the
    "not implemented" error message and then returns [undefined]: it
    completes normally, with no child list, and the message is the only
    thing it does. *)
Theorem getChildren_not_implemented :
  forall (t : DatabricksWorkspaceTreeItem) (tr : list Event),
    getChildren t tr =
    (Normal None,
     (tr ++ [ShowErrorMessage
               "getChildren is not implemented! Please overwrite in derived class!"])%list).
Proof.
  intros t tr. reflexivity.
Qed.

End TreeItemFacts.

(* ================================================================= *)
(** ** Probing the local file system *)

Section ProbeFacts.
Import Notebook.

Variable E : Host.

Lemma probe_miss (n : DatabricksWorkspaceNotebook) (exts : list string) :
  (forall x, In x exts -> existsSync E (pathToCheck E n x) = false) ->
  probe E exts n = (false, n).
Proof.
  induction exts as [|ext exts IH]; intros Hmiss; simpl.
  - reflexivity.
  - rewrite (Hmiss ext (or_introl eq_refl)).
    apply IH. intros x Hx. apply Hmiss. right. exact Hx.
Qed.

Lemma probe_hit (n : DatabricksWorkspaceNotebook) (pre : list string)
      (ext : string) (post : list string) :
  (forall x, In x pre -> existsSync E (pathToCheck E n x) = false) ->
  existsSync E (pathToCheck E n ext) = true ->
  probe E (pre ++ ext :: post)%list n =
  (true, set_languageFileExtension (fromExtension E ext) n).
Proof.
  induction pre as [|y pre IH]; intros Hmiss Hhit; simpl.
  - rewrite Hhit. reflexivity.
  - rewrite (Hmiss y (or_introl eq_refl)).
    apply IH; [|exact Hhit]. intros x Hx. apply Hmiss. right. exact Hx.
Qed.

Lemma probe_result (n : DatabricksWorkspaceNotebook) (exts : list string) :
  fst (probe E exts n) = existsb (fun x => existsSync E (pathToCheck E n x)) exts.
Proof.
  induction exts as [|ext exts IH]; simpl.
  - reflexivity.
  - destruct (existsSync E (pathToCheck E n ext)); [reflexivity | exact IH].
Qed.

(** A probe changes nothing but the extension mapping. *)
Lemma probe_frame (n : DatabricksWorkspaceNotebook) (exts : list string) :
  let n' := snd (probe E exts n) in
  _path n' = _path n /\ _object_id n' = _object_id n /\
  _language n' = _language n /\ _onlinePathExists n' = _onlinePathExists n.
Proof.
  induction exts as [|ext exts IH]; simpl.
  - repeat split.
  - destruct (existsSync E (pathToCheck E n ext)); simpl.
    + repeat split.
    + exact IH.
Qed.

Lemma probe_false_same (n : DatabricksWorkspaceNotebook) (exts : list string) :
  fst (probe E exts n) = false -> snd (probe E exts n) = n.
Proof.
  induction exts as [|ext exts IH]; simpl.
  - reflexivity.
  - destruct (existsSync E (pathToCheck E n ext)); simpl.
    + discriminate.
    + exact IH.
Qed.

(** With [allowAllSupportedFileExtensions] on, [localPathExists] probes
    the extensions recognised for the node's language in order: at the
    first extension whose probed path exists it answers [true] and the
    node's extension mapping becomes [fromExtension] of that extension,
    every other field being kept; when no probed path exists it answers
    [false] and the node is as before.  The answer is [true] exactly when
    some probed path exists.  The probed path is [pathToCheck], which is
    the node's own file with the candidate extension only when the active
    extension occurs in [localFilePath] at its end and nowhere before. *)
Theorem localPathExists_first_match :
  forall n : DatabricksWorkspaceNotebook,
    allowAllSupportedFileExtensions E = true ->
    (forall (pre : list string) (ext : string) (post : list string),
        allLanguageFileExtensions E (_language n) = (pre ++ ext :: post)%list ->
        (forall x, In x pre -> existsSync E (pathToCheck E n x) = false) ->
        existsSync E (pathToCheck E n ext) = true ->
        localPathExists E n =
        (true, set_languageFileExtension (fromExtension E ext) n) /\
        _languageFileExtension (snd (localPathExists E n)) = Some (fromExtension E ext) /\
        _path (snd (localPathExists E n)) = _path n /\
        _object_id (snd (localPathExists E n)) = _object_id n /\
        _language (snd (localPathExists E n)) = _language n /\
        _isInitialized (snd (localPathExists E n)) = _isInitialized n /\
        _onlinePathExists (snd (localPathExists E n)) = _onlinePathExists n /\
        iconPath (snd (localPathExists E n)) = iconPath n)
    /\ ((forall x, In x (allLanguageFileExtensions E (_language n)) ->
                   existsSync E (pathToCheck E n x) = false) ->
        localPathExists E n = (false, n))
    /\ fst (localPathExists E n) =
       existsb (fun x => existsSync E (pathToCheck E n x))
               (allLanguageFileExtensions E (_language n)).
Proof.
  intros n Hall. unfold localPathExists. rewrite Hall.
  split; [|split].
  - intros pre ext post Hexts Hmiss Hhit. rewrite Hexts.
    rewrite (probe_hit n pre ext post Hmiss Hhit). repeat split.
  - intros Hmiss. apply probe_miss. exact Hmiss.
  - apply probe_result.
Qed.

(** C9.  With [allowAllSupportedFileExtensions] off, [localPathExists] is
    the existence check of the canonical [localFilePath], and the node,
    its extension mapping included, is unchanged. *)
Theorem localPathExists_canonical_only :
  forall n : DatabricksWorkspaceNotebook,
    allowAllSupportedFileExtensions E = false ->
    localPathExists E n = (existsSync E (localFilePath E n), n)
    /\ _languageFileExtension (snd (localPathExists E n)) = _languageFileExtension n.
Proof.
  intros n Hoff. unfold localPathExists. rewrite Hoff. split; reflexivity.
Qed.

Lemma localPathExists_frame (n : DatabricksWorkspaceNotebook) :
  let n' := snd (localPathExists E n) in
  _path n' = _path n /\ _object_id n' = _object_id n /\
  _language n' = _language n /\ _onlinePathExists n' = _onlinePathExists n.
Proof.
  unfold localPathExists.
  destruct (allowAllSupportedFileExtensions E).
  - apply probe_frame.
  - simpl. repeat split.
Qed.

Lemma localPathExists_false_same (n : DatabricksWorkspaceNotebook) :
  fst (localPathExists E n) = false -> snd (localPathExists E n) = n.
Proof.
  unfold localPathExists.
  destruct (allowAllSupportedFileExtensions E).
  - apply probe_false_same.
  - reflexivity.
Qed.

End ProbeFacts.

(* ================================================================= *)
(** ** Reading accessors *)

Section ReadFacts.
Import Notebook.

Lemma seq_eq {A B} (r : Read A) (k : A -> Read B) (n : DatabricksWorkspaceNotebook) :
  seq r k n = k (fst (r n)) (snd (r n)).
Proof.
  unfold seq. destruct (r n); reflexivity.
Qed.

Lemma andR_eq (a b : Read bool) (n : DatabricksWorkspaceNotebook) :
  andR a b n = if fst (a n) then b (snd (a n)) else (false, snd (a n)).
Proof.
  unfold andR, seq, const. destruct (a n) as [[] ?]; reflexivity.
Qed.

Lemma notR_eq (a : Read bool) (n : DatabricksWorkspaceNotebook) :
  notR a n = (negb (fst (a n)), snd (a n)).
Proof.
  unfold notR, seq, const. destruct (a n); reflexivity.
Qed.

End ReadFacts.

(* ================================================================= *)
(** ** Presentation: contextValue *)

Section ContextValueFacts.
Import Notebook.

Variable E : Host.

(** The three reads of [localPathExists] that [contextValue] can make, one
    after the other. *)
Lemma contextValue_reads (n : DatabricksWorkspaceNotebook) :
  let o := onlinePathExists n in
  let r1 := localPathExists E n in
  let r2 := localPathExists E (snd r1) in
  let r3 := localPathExists E (snd r2) in
  fst (contextValue E n) =
  if fst r1 && o then Some "CAN_SYNC"
  else if negb (fst r2) && o then Some "CAN_DOWNLOAD"
  else if fst r3 && negb o then Some "CAN_UPLOAD"
  else None.
Proof.
  cbv zeta.
  pose proof (localPathExists_frame E n) as F1.
  pose proof (localPathExists_frame E (snd (localPathExists E n))) as F2.
  pose proof (localPathExists_frame E
                (snd (localPathExists E (snd (localPathExists E n))))) as F3.
  cbv zeta in F1, F2, F3.
  destruct F1 as (_ & _ & _ & O1). destruct F2 as (_ & _ & _ & O2).
  destruct F3 as (_ & _ & _ & O3).
  rewrite O2, O1 in O3. rewrite O1 in O2.
  cbv beta delta [contextValue seq andR notR pure const onlinePathExists].
  destruct (localPathExists E n) as [l1 n1]. simpl in O1, O2, O3 |- *.
  destruct l1; simpl; rewrite ?O1;
    destruct (_onlinePathExists n) eqn:O; simpl; try reflexivity;
    destruct (localPathExists E n1) as [l2 n2]; simpl in O2, O3 |- *;
    destruct l2; simpl; rewrite ?O1, ?O2, ?O; simpl; try reflexivity;
    destruct (localPathExists E n2) as [l3 n3]; simpl in O3 |- *;
    destruct l3; simpl; rewrite ?O2, ?O3, ?O; reflexivity.
Qed.

(** When every read of [localPathExists] gives what the first one gave,
    [contextValue] follows the table. *)
Lemma contextValue_table_of_stable_reads (n : DatabricksWorkspaceNotebook) :
  let l := fst (localPathExists E n) in
  let n1 := snd (localPathExists E n) in
  let n2 := snd (localPathExists E n1) in
  fst (localPathExists E n1) = l ->
  fst (localPathExists E n2) = l ->
  fst (contextValue E n) =
  match l, onlinePathExists n with
  | true, true => Some "CAN_SYNC"
  | false, true => Some "CAN_DOWNLOAD"
  | true, false => Some "CAN_UPLOAD"
  | false, false => None
  end.
Proof.
  cbv zeta. intros H2 H3.
  rewrite contextValue_reads. cbv zeta. rewrite H3, H2.
  destruct (fst (localPathExists E n)), (onlinePathExists n); reflexivity.
Qed.

(** With [allowAllSupportedFileExtensions] off the reads are pure, and the
    table holds on every node. *)
Lemma contextValue_table_canonical_only (n : DatabricksWorkspaceNotebook) :
  allowAllSupportedFileExtensions E = false ->
  contextValue E n =
  (match existsSync E (localFilePath E n), onlinePathExists n with
   | true, true => Some "CAN_SYNC"
   | false, true => Some "CAN_DOWNLOAD"
   | true, false => Some "CAN_UPLOAD"
   | false, false => None
   end, n).
Proof.
  intros Hoff.
  assert (Hread : forall m, localPathExists E m = (existsSync E (localFilePath E m), m)).
  { intros m. unfold localPathExists. rewrite Hoff. reflexivity. }
  unfold contextValue.
  repeat (rewrite ?seq_eq, ?andR_eq, ?notR_eq, ?Hread; cbv zeta;
          cbn [fst snd pure const]).
  destruct (existsSync E (localFilePath E n)) eqn:X;
    destruct (onlinePathExists n) eqn:O;
    repeat (rewrite ?seq_eq, ?andR_eq, ?notR_eq, ?Hread, ?X, ?O; cbv zeta;
            cbn [fst snd pure const negb]; rewrite ?X, ?O);
    reflexivity.
Qed.

(** A first read that answers [false] leaves the node alone, so the later
    reads agree with it. *)
Lemma contextValue_table_first_read_false (n : DatabricksWorkspaceNotebook) :
  fst (localPathExists E n) = false ->
  fst (contextValue E n) =
  if onlinePathExists n then Some "CAN_DOWNLOAD" else None.
Proof.
  intros Hf.
  pose proof (localPathExists_false_same E n Hf) as Hs.
  rewrite contextValue_reads. cbv zeta. rewrite !Hs, Hf.
  destruct (onlinePathExists n); reflexivity.
Qed.

End ContextValueFacts.

(** C1.  The node of source "Local" for [/proj.py/nb], built while
    [/sync/Workspace/proj.py/nb.py] was on disk and bound to [.py]; that
    file is then deleted, and [/sync/Workspace/proj.ipynb/nb.py], the file
    of another notebook, stays.  With [allowAllSupportedFileExtensions] on,
    reading [localPathExists] answers [true] and [onlinePathExists] is
    [false], the row of the table that gives 'CAN_UPLOAD'; yet
    [contextValue] is [undefined].  The first read rebinds the mapping to
    [.ipynb], after which the later reads of the getter probe other paths
    and answer [false]. *)
Theorem contextValue_unstable_read :
  fst (Notebook.localPathExists Scenario.hostSiblingFolder Scenario.localProjNotebook)
  = true /\
  Notebook.onlinePathExists Scenario.localProjNotebook = false /\
  fst (Notebook.localPathExists Scenario.hostSiblingFolder
         (snd (Notebook.localPathExists Scenario.hostSiblingFolder
                 Scenario.localProjNotebook))) = false /\
  fst (Notebook.contextValue Scenario.hostSiblingFolder Scenario.localProjNotebook)
  = None.
Proof.
  vm_compute. repeat split.
Qed.

(* ================================================================= *)
(** ** Actions: download, upload, compare *)

Section ActionFacts.
Import Act Notebook.

Variable E : Host.

(** What a call of [download] can do, case by case. *)
Lemma download_cases (n : DatabricksWorkspaceNotebook) (asTempFile : bool)
      (tr : list Event) :
  exists (r : option string) (evs : list Event),
    download E n asTempFile tr = (Normal r, (tr ++ evs)%list) /\
    (asTempFile = true ->
     exists rest, evs = OpenTempFile "" (label n ++ "-ONLINE") false :: rest) /\
    (forall localPath format,
        In (DownloadWorkspaceItem (path n) localPath format) evs ->
        downloadWorkspaceItem E (path n) localPath format <> Promise (Fulfilled tt) ->
        r = None) /\
    match r with
    | Some localPath =>
        (if asTempFile
         then exists tmp,
             openTempFile E "" (label n ++ "-ONLINE") false = Promise (Fulfilled tmp) /\
             localPath = tmp ++ localFileExtension E n
         else localPath = localFilePath E n) /\
        (exists m,
            _languageFileExtension n = Some m /\
            downloadWorkspaceItem E (path n) localPath
              (LanguageFileExtensionMapper.exportFormat m) = Promise (Fulfilled tt) /\
            In (DownloadWorkspaceItem (path n) localPath
                  (LanguageFileExtensionMapper.exportFormat m)) evs) /\
        (forall msg, ~ In (ShowErrorMessage msg) evs)
    | None =>
        exists (e : Error) (before : list Event),
          evs = (before ++ [ShowErrorMessage ("ERROR: " ++ e)])%list /\
          (forall msg, ~ In (ShowErrorMessage msg) before) /\
          (forall localPath format,
              In (DownloadWorkspaceItem (path n) localPath format) before ->
              downloadWorkspaceItem E (path n) localPath format = Promise (Rejected e) \/
              downloadWorkspaceItem E (path n) localPath format = Threw e)
    end.
Proof.
  unfold download, tryCatch, bind, call, await, exportFormat, emit, ret, throw, refresh.
  destruct asTempFile.
  - destruct (openTempFile E "" (label n ++ "-ONLINE") false) as [e | [tmp | e]] eqn:HT.
    + exists None, [OpenTempFile "" (label n ++ "-ONLINE") false;
                    ShowErrorMessage ("ERROR: " ++ e)].
      split; [trace_eq|].
      split; [intros _; eexists; reflexivity|].
      split; [reflexivity|].
      exists e, [OpenTempFile "" (label n ++ "-ONLINE") false].
      split; [reflexivity|]. split.
      * intros msg [H|[]]; discriminate.
      * intros lp f [H|[]]; discriminate.
    + destruct (_languageFileExtension n) as [m|] eqn:HM.
      * destruct (downloadWorkspaceItem E (path n) (tmp ++ localFileExtension E n)
                    (LanguageFileExtensionMapper.exportFormat m))
          as [e | [[] | e]] eqn:HD.
        -- exists None. eexists.
           split; [trace_eq|].
           split; [intros _; eexists; reflexivity|].
           split; [reflexivity|].
           exists e, [OpenTempFile "" (label n ++ "-ONLINE") false;
                      DownloadWorkspaceItem (path n) (tmp ++ localFileExtension E n)
                        (LanguageFileExtensionMapper.exportFormat m)].
           split; [reflexivity|]. split.
           ++ intros msg [H|[H|[]]]; discriminate.
           ++ intros lp f [H|[H|[]]]; [discriminate|].
              inversion H; subst. right. exact HD.
        -- exists (Some (tmp ++ localFileExtension E n)). eexists.
           rewrite andb_false_r.
           split; [trace_eq|].
           split; [intros _; eexists; reflexivity|].
           split.
           { intros lp f [H|[H|[H|[]]]]; try discriminate.
             inversion H; subst. intros Hne. contradiction. }
           split; [exists tmp; split; reflexivity|].
           split.
           ++ exists m. split; [reflexivity|]. split; [exact HD|].
              simpl. right. left. reflexivity.
           ++ intros msg [H|[H|[H|[]]]]; discriminate.
        -- exists None. eexists.
           split; [trace_eq|].
           split; [intros _; eexists; reflexivity|].
           split; [reflexivity|].
           exists e, [OpenTempFile "" (label n ++ "-ONLINE") false;
                      DownloadWorkspaceItem (path n) (tmp ++ localFileExtension E n)
                        (LanguageFileExtensionMapper.exportFormat m)].
           split; [reflexivity|]. split.
           ++ intros msg [H|[H|[]]]; discriminate.
           ++ intros lp f [H|[H|[]]]; [discriminate|].
              inversion H; subst. left. exact HD.
      * exists None. eexists.
        split; [trace_eq|].
        split; [intros _; eexists; reflexivity|].
        split; [reflexivity|].
        exists (typeError "exportFormat"), [OpenTempFile "" (label n ++ "-ONLINE") false].
        split; [reflexivity|]. split.
        -- intros msg [H|[]]; discriminate.
        -- intros lp f [H|[]]; discriminate.
    + exists None, [OpenTempFile "" (label n ++ "-ONLINE") false;
                    ShowErrorMessage ("ERROR: " ++ e)].
      split; [trace_eq|].
      split; [intros _; eexists; reflexivity|].
      split; [reflexivity|].
      exists e, [OpenTempFile "" (label n ++ "-ONLINE") false].
      split; [reflexivity|]. split.
      * intros msg [H|[]]; discriminate.
      * intros lp f [H|[]]; discriminate.
  - destruct (_languageFileExtension n) as [m|] eqn:HM.
    + destruct (downloadWorkspaceItem E (path n) (localFilePath E n)
                  (LanguageFileExtensionMapper.exportFormat m))
        as [e | [[] | e]] eqn:HD.
      * exists None. eexists.
        split; [trace_eq|].
        split; [discriminate|].
        split; [reflexivity|].
        exists e, [DownloadWorkspaceItem (path n) (localFilePath E n)
                     (LanguageFileExtensionMapper.exportFormat m)].
        split; [reflexivity|]. split.
        -- intros msg [H|[]]; discriminate.
        -- intros lp f [H|[]]. inversion H; subst. right. exact HD.
      * exists (Some (localFilePath E n)).
        rewrite andb_true_r.
        destruct (RefreshAfterUpDownload E); eexists;
          (split; [trace_eq|]);
          (split; [discriminate|]);
          (split;
           [ intros lp f Hin Hne; simpl in Hin;
             repeat (destruct Hin as [Hin|Hin]; try discriminate);
             [inversion Hin; subst; contradiction | contradiction] |]);
          (split; [reflexivity|]);
          (split;
           [ exists m; split; [reflexivity|]; split; [exact HD|]; simpl; left; reflexivity
           | intros msg Hin; simpl in Hin;
             repeat (destruct Hin as [Hin|Hin]; try discriminate); contradiction ]).
      * exists None. eexists.
        split; [trace_eq|].
        split; [discriminate|].
        split; [reflexivity|].
        exists e, [DownloadWorkspaceItem (path n) (localFilePath E n)
                     (LanguageFileExtensionMapper.exportFormat m)].
        split; [reflexivity|]. split.
        -- intros msg [H|[]]; discriminate.
        -- intros lp f [H|[]]. inversion H; subst. left. exact HD.
    + exists None, [ShowErrorMessage ("ERROR: " ++ typeError "exportFormat")].
      split; [reflexivity|].
      split; [discriminate|].
      split; [reflexivity|].
      exists (typeError "exportFormat"), [].
      split; [reflexivity|]. split.
      * intros msg [].
      * intros lp f [].
Qed.

(** A download that goes well: the mapping is defined, the temporary file
    opens when one is asked for, and the fetch fulfils. *)
Lemma download_success (n : DatabricksWorkspaceNotebook) (asTempFile : bool)
      (m : LanguageFileExtensionMapper.t) (target : string) (tr : list Event) :
  _languageFileExtension n = Some m ->
  (if asTempFile
   then exists tmp,
       openTempFile E "" (label n ++ "-ONLINE") false = Promise (Fulfilled tmp) /\
       target = tmp ++ localFileExtension E n
   else target = localFilePath E n) ->
  downloadWorkspaceItem E (path n) target
    (LanguageFileExtensionMapper.exportFormat m) = Promise (Fulfilled tt) ->
  download E n asTempFile tr =
  (Normal (Some target),
   (tr ++ (if asTempFile then [OpenTempFile "" (label n ++ "-ONLINE") false] else []) ++
       [DownloadWorkspaceItem (path n) target
          (LanguageFileExtensionMapper.exportFormat m);
        ShowInformationMessage ("Download of item " ++ _path n ++ ") finished!")] ++
       (if RefreshAfterUpDownload E && negb asTempFile
        then [Wait 500; ExecuteCommand "databricksWorkspace.refresh" false]
        else []))%list).
Proof.
  intros HM HT HD.
  unfold download, tryCatch, bind, call, await, exportFormat, emit, ret, throw, refresh.
  destruct asTempFile.
  - destruct HT as (tmp & HO & ->).
    rewrite HO, HM, HD, andb_false_r. trace_eq.
  - subst target. rewrite HM, HD, andb_true_r.
    destruct (RefreshAfterUpDownload E); trace_eq.
Qed.

(** C4.  [download(asTempFile)] never throws.  It returns either a defined
    path or [undefined].  When the fetch goes well (the mapping is defined,
    the temporary file opens when one is asked for, and the call of
    [downloadWorkspaceItem] on the target fulfils), the target is what is
    returned: the canonical [localFilePath], or with [asTempFile] the
    freshly opened temporary file's path with the local extension
    appended; what is done is then the opening of the temporary file when
    asked for, the fetch, the "finished" message and the refresh when
    configured, and nothing else.  Conversely a defined path is the path
    that was handed to the remote fetch, which fulfilled, and no error
    message is shown then.  [undefined] comes with an error message
    [ERROR: e] as the last thing done, where [e] is the error of the fetch
    whenever the fetch was attempted.  A fetch that does not fulfil always
    gives [undefined]. *)
Theorem download_swallows_errors :
  forall (n : DatabricksWorkspaceNotebook) (asTempFile : bool) (tr : list Event),
  exists (r : option string) (evs : list Event),
    download E n asTempFile tr = (Normal r, (tr ++ evs)%list) /\
    (forall (m : LanguageFileExtensionMapper.t) (target : string),
        _languageFileExtension n = Some m ->
        (if asTempFile
         then exists tmp,
             openTempFile E "" (label n ++ "-ONLINE") false = Promise (Fulfilled tmp) /\
             target = tmp ++ localFileExtension E n
         else target = localFilePath E n) ->
        downloadWorkspaceItem E (path n) target
          (LanguageFileExtensionMapper.exportFormat m) = Promise (Fulfilled tt) ->
        r = Some target /\
        evs =
        ((if asTempFile then [OpenTempFile "" (label n ++ "-ONLINE") false] else []) ++
         [DownloadWorkspaceItem (path n) target
            (LanguageFileExtensionMapper.exportFormat m);
          ShowInformationMessage ("Download of item " ++ _path n ++ ") finished!")] ++
         (if RefreshAfterUpDownload E && negb asTempFile
          then [Wait 500; ExecuteCommand "databricksWorkspace.refresh" false]
          else []))%list) /\
    (forall localPath format,
        In (DownloadWorkspaceItem (path n) localPath format) evs ->
        downloadWorkspaceItem E (path n) localPath format <> Promise (Fulfilled tt) ->
        r = None) /\
    match r with
    | Some localPath =>
        (if asTempFile
         then exists tmp,
             openTempFile E "" (label n ++ "-ONLINE") false = Promise (Fulfilled tmp) /\
             localPath = tmp ++ localFileExtension E n
         else localPath = localFilePath E n) /\
        (exists m,
            _languageFileExtension n = Some m /\
            downloadWorkspaceItem E (path n) localPath
              (LanguageFileExtensionMapper.exportFormat m) = Promise (Fulfilled tt) /\
            In (DownloadWorkspaceItem (path n) localPath
                  (LanguageFileExtensionMapper.exportFormat m)) evs) /\
        (forall msg, ~ In (ShowErrorMessage msg) evs)
    | None =>
        exists (e : Error) (before : list Event),
          evs = (before ++ [ShowErrorMessage ("ERROR: " ++ e)])%list /\
          (forall msg, ~ In (ShowErrorMessage msg) before) /\
          (forall localPath format,
              In (DownloadWorkspaceItem (path n) localPath format) before ->
              downloadWorkspaceItem E (path n) localPath format = Promise (Rejected e) \/
              downloadWorkspaceItem E (path n) localPath format = Threw e)
    end.
Proof.
  intros n asTempFile tr.
  destruct (download_cases n asTempFile tr) as (r & evs & Hrun & _ & Hfail & Hres).
  exists r, evs. split; [exact Hrun|]. split; [|split; assumption].
  intros m target HM HT HD.
  rewrite (download_success n asTempFile m target tr HM HT HD) in Hrun.
  injection Hrun as Hr Hev. apply app_inv_head in Hev.
  split; [symmetry; exact Hr | symmetry; exact Hev].
Qed.

(** When the promise of [uploadWorkspaceItem] is rejected, [upload] has
    already gone on: it shows the "finished" message, schedules the
    refresh when configured, and completes normally. *)
Lemma upload_rejection_unreported (n : DatabricksWorkspaceNotebook)
      (m : LanguageFileExtensionMapper.t) (e : Error) (tr : list Event) :
  _languageFileExtension n = Some m ->
  uploadWorkspaceItem E (localFilePath E n) (path n) (_language n) true
    (LanguageFileExtensionMapper.exportFormat m) = Promise (Rejected e) ->
  upload E n tr =
  (Normal tt,
   (tr ++ [UploadWorkspaceItem (localFilePath E n) (path n) (_language n) true
             (LanguageFileExtensionMapper.exportFormat m);
           ShowInformationMessage ("Upload of item " ++ path n ++ ") finished!")]
       ++ (if RefreshAfterUpDownload E
           then [Wait 500; ExecuteCommand "databricksWorkspace.refresh" false]
           else []))%list).
Proof.
  intros HM HU.
  unfold upload, tryCatch, bind, call, exportFormat, emit, ret, refresh.
  rewrite HM, HU.
  destruct (RefreshAfterUpDownload E); trace_eq.
Qed.

(** A synchronous throw of [uploadWorkspaceItem] is what the [catch] of
    [upload] sees. *)
Lemma upload_throw_reported (n : DatabricksWorkspaceNotebook)
      (m : LanguageFileExtensionMapper.t) (e : Error) (tr : list Event) :
  _languageFileExtension n = Some m ->
  uploadWorkspaceItem E (localFilePath E n) (path n) (_language n) true
    (LanguageFileExtensionMapper.exportFormat m) = Threw e ->
  upload E n tr =
  (Normal tt,
   (tr ++ [UploadWorkspaceItem (localFilePath E n) (path n) (_language n) true
             (LanguageFileExtensionMapper.exportFormat m);
           ShowErrorMessage ("ERROR: " ++ e)])%list).
Proof.
  intros HM HU.
  unfold upload, tryCatch, bind, call, exportFormat, emit, ret, refresh.
  rewrite HM, HU. trace_eq.
Qed.

(** [upload] never throws. *)
Lemma upload_completes (n : DatabricksWorkspaceNotebook) (tr : list Event) :
  exists evs, upload E n tr = (Normal tt, (tr ++ evs)%list).
Proof.
  unfold upload, tryCatch, bind, call, exportFormat, emit, ret, throw, refresh.
  destruct (_languageFileExtension n) as [m|].
  - destruct (uploadWorkspaceItem E (localFilePath E n) (path n) (_language n) true
                (LanguageFileExtensionMapper.exportFormat m)) as [e|p].
    + eexists. trace_eq.
    + destruct (RefreshAfterUpDownload E); eexists; trace_eq.
  - eexists. trace_eq.
Qed.

(** C5, as amended.  On a node whose active mapping is a packaged notebook
    format ([isNotebook]), [compare()] shows the refusal message and
    returns: nothing is downloaded and no diff is shown.  On a node whose
    active mapping is not, [compare()] runs [download(true)] and then
    always shows the diff of what it returned against [localFilePath]:
    when the temporary file opens and the fetch fulfils, that is the
    temporary file's path with the local extension appended, the online
    copy; when the fetch fails, or the temporary file cannot be opened, the
    error is shown and the diff is shown with an undefined online file. *)
Theorem compare_refuses_notebook_format :
  forall (n : DatabricksWorkspaceNotebook) (m : LanguageFileExtensionMapper.t)
         (tr : list Event),
    _languageFileExtension n = Some m ->
    (LanguageFileExtensionMapper.isNotebook m = true ->
     compare E n tr =
     (Normal tt,
      (tr ++ [ShowErrorMessage
                "DIFF is currently not supported when using notebooks. You can change the export formats to work around this issue!"])%list))
    /\
    (LanguageFileExtensionMapper.isNotebook m = false ->
     (forall tmp,
         openTempFile E "" (label n ++ "-ONLINE") false = Promise (Fulfilled tmp) ->
         (downloadWorkspaceItem E (path n) (tmp ++ localFileExtension E n)%string
            (LanguageFileExtensionMapper.exportFormat m) = Promise (Fulfilled tt) ->
          compare E n tr =
          (Normal tt,
           (tr ++ [OpenTempFile "" (label n ++ "-ONLINE")%string false;
                   DownloadWorkspaceItem (path n) (tmp ++ localFileExtension E n)%string
                     (LanguageFileExtensionMapper.exportFormat m);
                   ShowInformationMessage
                     ("Download of item " ++ _path n ++ ") finished!")%string;
                   ShowDiff (Some (tmp ++ localFileExtension E n)%string)
                            (localFilePath E n)])%list))
         /\
         (forall e,
             downloadWorkspaceItem E (path n) (tmp ++ localFileExtension E n)%string
               (LanguageFileExtensionMapper.exportFormat m) = Promise (Rejected e) \/
             downloadWorkspaceItem E (path n) (tmp ++ localFileExtension E n)%string
               (LanguageFileExtensionMapper.exportFormat m) = Threw e ->
             compare E n tr =
             (Normal tt,
              (tr ++ [OpenTempFile "" (label n ++ "-ONLINE")%string false;
                      DownloadWorkspaceItem (path n) (tmp ++ localFileExtension E n)%string
                        (LanguageFileExtensionMapper.exportFormat m);
                      ShowErrorMessage ("ERROR: " ++ e)%string;
                      ShowDiff None (localFilePath E n)])%list)))
     /\
     (forall e,
         openTempFile E "" (label n ++ "-ONLINE") false = Promise (Rejected e) \/
         openTempFile E "" (label n ++ "-ONLINE") false = Threw e ->
         compare E n tr =
         (Normal tt,
          (tr ++ [OpenTempFile "" (label n ++ "-ONLINE")%string false;
                  ShowErrorMessage ("ERROR: " ++ e)%string;
                  ShowDiff None (localFilePath E n)])%list))).
Proof.
  intros n m tr HM. split; intros HN.
  - unfold compare. rewrite HM, HN. reflexivity.
  - unfold compare. rewrite HM, HN.
    unfold download, tryCatch, bind, call, await, exportFormat, emit, ret, throw, refresh.
    split.
    + intros tmp HT. rewrite HT, HM. split.
      * intros HD. rewrite HD, andb_false_r. trace_eq.
      * intros e [HD | HD]; rewrite HD; trace_eq.
    + intros e [HT | HT]; rewrite HT; trace_eq.
Qed.

End ActionFacts.

(** C3.  [uploadWorkspaceItem] hands back a promise that is rejected with
    [HTTP 403].  [upload()] shows "Upload of item ... finished!" and
    schedules the refresh; it shows no error message. *)
Theorem upload_rejection_shows_success :
  uploadWorkspaceItem Scenario.hostCanonical
    (Notebook.localFilePath Scenario.hostCanonical
       (Scenario.userNotebook Scenario.hostCanonical))
    (Notebook.path (Scenario.userNotebook Scenario.hostCanonical))
    (Notebook._language (Scenario.userNotebook Scenario.hostCanonical))
    true "SOURCE" = Promise (Rejected "HTTP 403") /\
  Notebook.upload Scenario.hostCanonical
    (Scenario.userNotebook Scenario.hostCanonical) [] =
  (Act.Normal tt,
   [UploadWorkspaceItem "/sync/Workspace/Users/a/nb.py" "/Users/a/nb" "PYTHON" true "SOURCE";
    ShowInformationMessage "Upload of item /Users/a/nb) finished!";
    Wait 500;
    ExecuteCommand "databricksWorkspace.refresh" false]).
Proof.
  vm_compute. repeat split.
Qed.

(* ================================================================= *)
(** ** The paths that localPathExists probes *)

Section CandidatePaths.
Import Notebook.

Variable E : Host.

(** The recognised extensions are plain file extensions: none holds a
    dollar sign, which [String.prototype.replace] would read as the start
    of a replacement pattern. *)
Hypothesis plainExtensions :
  forall (l : WorkspaceItemLanguage) (ext : string),
    In ext (allLanguageFileExtensions E l) -> Str.noDollar ext = true.


End CandidatePaths.

(* ================================================================= *)
(** ** Presentation: tooltip *)

Section TooltipFacts.
Import Notebook.

Variable E : Host.

(** The reads of [localPathExists] that [tooltip] makes: one on a node that
    is not online, two in a row on a node that is. *)
Lemma tooltip_reads (n : DatabricksWorkspaceNotebook) :
  let l1 := fst (localPathExists E n) in
  let l2 := fst (localPathExists E (snd (localPathExists E n))) in
  fst (tooltip E n) =
  (path n ++ Str.newline) ++
  (if onlinePathExists n
   then (if l1 then "" else "[Online only]" ++ Str.newline) ++
        (if l2 then "[Synced]" ++ Str.newline else "")
   else if l1 then "[Offline only]" ++ Str.newline else "").
Proof.
  cbv zeta.
  pose proof (localPathExists_frame E n) as F1. cbv zeta in F1.
  destruct F1 as (_ & _ & _ & O1).
  unfold tooltip.
  repeat (rewrite ?seq_eq, ?andR_eq, ?notR_eq; cbv zeta; cbn [fst snd pure const]).
  unfold onlinePathExists in *.
  destruct (_onlinePathExists n) eqn:O; cbn [negb fst snd];
    repeat (rewrite ?seq_eq, ?andR_eq, ?notR_eq, ?O1, ?O; cbv zeta;
            cbn [fst snd pure const negb]).
  - destruct (fst (localPathExists E n));
      destruct (fst (localPathExists E (snd (localPathExists E n))));
      cbn [negb fst snd]; rewrite ?append_nil_r, ?append_assoc; reflexivity.
  - destruct (fst (localPathExists E n)); cbn [negb fst snd];
      rewrite ?append_nil_r; reflexivity.
Qed.

(** C6, as amended.  [tooltip] is the path, a line break, and then the one
    line of the sync state: [[Online only]], [[Offline only]] or
    [[Synced]], and no line when the file exists on neither side; this on
    every node on which the second read of [localPathExists] agrees with
    the first.  On such a node whose path holds none of the three markers,
    the tooltip contains [[Online only]] iff the file is online only,
    [[Offline only]] iff it is local only and [[Synced]] iff it is on both
    sides. *)
Theorem tooltip_sync_marker :
  forall n : DatabricksWorkspaceNotebook,
    fst (localPathExists E (snd (localPathExists E n))) = fst (localPathExists E n) ->
    fst (tooltip E n) =
    path n ++ Str.newline ++
    match fst (localPathExists E n), onlinePathExists n with
    | false, true => "[Online only]" ++ Str.newline
    | true, false => "[Offline only]" ++ Str.newline
    | true, true => "[Synced]" ++ Str.newline
    | false, false => ""
    end
    /\
    (Str.includes "[Online only]" (path n) = false ->
     Str.includes "[Offline only]" (path n) = false ->
     Str.includes "[Synced]" (path n) = false ->
     Str.includes "[Online only]" (fst (tooltip E n)) =
       negb (fst (localPathExists E n)) && onlinePathExists n /\
     Str.includes "[Offline only]" (fst (tooltip E n)) =
       fst (localPathExists E n) && negb (onlinePathExists n) /\
     Str.includes "[Synced]" (fst (tooltip E n)) =
       fst (localPathExists E n) && onlinePathExists n).
Proof.
  intros n Hstable.
  assert (Hshape :
    fst (tooltip E n) =
    path n ++ Str.newline ++
    match fst (localPathExists E n), onlinePathExists n with
    | false, true => "[Online only]" ++ Str.newline
    | true, false => "[Offline only]" ++ Str.newline
    | true, true => "[Synced]" ++ Str.newline
    | false, false => ""
    end).
  { rewrite tooltip_reads. cbv zeta. rewrite Hstable, append_assoc.
    destruct (fst (localPathExists E n)), (onlinePathExists n); reflexivity. }
  split; [exact Hshape|].
  intros H1 H2 H3. rewrite Hshape.
  destruct (fst (localPathExists E n)), (onlinePathExists n);
    cbn [negb andb];
    repeat split;
    rewrite ?includes_lines by (try reflexivity; discriminate);
    rewrite ?H1, ?H2, ?H3; reflexivity.
Qed.

End TooltipFacts.

(** C5, as stated, fails when the fetch fails: the node [/Users/a/nb] is
    bound to [.py], not a packaged notebook format, and every fetch is
    rejected with [HTTP 500].  No online copy is downloaded; [compare()]
    shows the error and then the diff all the same, with an undefined
    online file. *)
Lemma compare_diff_without_online_copy :
  (exists m,
      Notebook._languageFileExtension (Scenario.userNotebook Scenario.hostCanonical)
      = Some m /\
      LanguageFileExtensionMapper.isNotebook m = false) /\
  downloadWorkspaceItem Scenario.hostFetchRejected
    "/Users/a/nb" "/tmp/nb-ONLINE.py" "SOURCE" = Promise (Rejected "HTTP 500") /\
  Notebook.download Scenario.hostFetchRejected
    (Scenario.userNotebook Scenario.hostCanonical) true []
  = (Act.Normal None,
     [OpenTempFile "" "nb-ONLINE" false;
      DownloadWorkspaceItem "/Users/a/nb" "/tmp/nb-ONLINE.py" "SOURCE";
      ShowErrorMessage "ERROR: HTTP 500"]) /\
  Notebook.compare Scenario.hostFetchRejected
    (Scenario.userNotebook Scenario.hostCanonical) []
  = (Act.Normal tt,
     [OpenTempFile "" "nb-ONLINE" false;
      DownloadWorkspaceItem "/Users/a/nb" "/tmp/nb-ONLINE.py" "SOURCE";
      ShowErrorMessage "ERROR: HTTP 500";
      ShowDiff None "/sync/Workspace/Users/a/nb.py"]).
Proof.
  split; [exists (Scenario.mapperOf ".py"); split; reflexivity|].
  vm_compute. repeat split.
Qed.

(** C2.  The node of the online notebook [/proj.py/nb], built before
    anything was on disk and bound to [.py], read with
    [allowAllSupportedFileExtensions] on once
    [/sync/Workspace/proj.ipynb/nb.py], the file of the notebook
    [/proj.ipynb/nb], is the only file on disk.  The notebook has no local
    file under either recognised extension: neither its [localFilePath]
    bound to [.py] nor its [localFilePath] bound to [.ipynb] exists.
    [localPathExists] answers [true] all the same and rebinds the node to
    the mapper of [.ipynb]: for [.ipynb] it probes
    [/sync/Workspace/proj.ipynb/nb.py], because the replacement hits the
    first [.py], inside the folder name. *)
Theorem localPathExists_hits_foreign_file :
  allowAllSupportedFileExtensions Scenario.hostSiblingFolder = true /\
  allLanguageFileExtensions Scenario.hostSiblingFolder
    (Notebook._language Scenario.onlineProjNotebook) = [".py"; ".ipynb"] /\
  Notebook._languageFileExtension Scenario.onlineProjNotebook
  = Some (fromExtension Scenario.hostSiblingFolder ".py") /\
  Notebook.localFilePath Scenario.hostSiblingFolder
    (Notebook.set_languageFileExtension
       (fromExtension Scenario.hostSiblingFolder ".py") Scenario.onlineProjNotebook)
  = "/sync/Workspace/proj.py/nb.py" /\
  Notebook.localFilePath Scenario.hostSiblingFolder
    (Notebook.set_languageFileExtension
       (fromExtension Scenario.hostSiblingFolder ".ipynb") Scenario.onlineProjNotebook)
  = "/sync/Workspace/proj.py/nb.ipynb" /\
  existsSync Scenario.hostSiblingFolder "/sync/Workspace/proj.py/nb.py" = false /\
  existsSync Scenario.hostSiblingFolder "/sync/Workspace/proj.py/nb.ipynb" = false /\
  Notebook.pathToCheck Scenario.hostSiblingFolder Scenario.onlineProjNotebook ".ipynb"
  = "/sync/Workspace/proj.ipynb/nb.py" /\
  fst (Notebook.localPathExists Scenario.hostSiblingFolder Scenario.onlineProjNotebook)
  = true /\
  Notebook._languageFileExtension
    (snd (Notebook.localPathExists Scenario.hostSiblingFolder
            Scenario.onlineProjNotebook))
  = Some (fromExtension Scenario.hostSiblingFolder ".ipynb") /\
  existsSync Scenario.hostSiblingFolder
    (Notebook.localFilePath Scenario.hostSiblingFolder
       (snd (Notebook.localPathExists Scenario.hostSiblingFolder
               Scenario.onlineProjNotebook)))
  = false.
Proof.
  vm_compute. repeat split.
Qed.

(** C6, as stated, fails on a path that holds a marker: the node
    [/Users/a/[Synced] report] exists online only, and its tooltip contains
    both [[Online only]] and [[Synced]]. *)
Lemma tooltip_marker_text_in_path :
  fst (Notebook.localPathExists Scenario.hostNoFiles Scenario.bracketNotebook) = false /\
  Notebook.onlinePathExists Scenario.bracketNotebook = true /\
  Str.includes "[Online only]"
    (fst (Notebook.tooltip Scenario.hostNoFiles Scenario.bracketNotebook)) = true /\
  Str.includes "[Synced]"
    (fst (Notebook.tooltip Scenario.hostNoFiles Scenario.bracketNotebook)) = true.
Proof.
  vm_compute. repeat split.
Qed.

(** The node of the online notebook [/proj.py/nb], built before anything
    was on disk, once [/sync/Workspace/proj.ipynb/nb.py] is there: the two
    reads of [localPathExists] disagree, and the tooltip shows no marker at
    all. *)
Lemma tooltip_unstable_read :
  fst (Notebook.localPathExists Scenario.hostSiblingFolder Scenario.onlineProjNotebook)
  = true /\
  Notebook.onlinePathExists Scenario.onlineProjNotebook = true /\
  fst (Notebook.tooltip Scenario.hostSiblingFolder Scenario.onlineProjNotebook)
  = "/proj.py/nb" ++ Str.newline.
Proof.
  vm_compute. repeat split.
Qed.

(* ================================================================= *)
(** ** Facts about path segments *)

Section SegmentFacts.
Import Str.

Lemma is_slash_true (c : ascii) : is_slash c = true -> c = slash.
Proof.
  unfold is_slash. intros H. apply Ascii.eqb_eq. exact H.
Qed.

Lemma isEmpty_false (s : string) : s <> "" -> isEmpty s = false.
Proof.
  destruct s; [contradiction | reflexivity].
Qed.

Lemma isEmpty_append (a b : string) : a <> "" -> isEmpty (a ++ b) = false.
Proof.
  destruct a; [contradiction | reflexivity].
Qed.

Lemma split_not_nil (s : string) : split slash s <> [].
Proof.
  destruct s as [|c s]; simpl; [discriminate|].
  destruct (Ascii.eqb c slash); [discriminate|].
  destruct (split slash s); discriminate.
Qed.

(** Splitting at a slash splits the list of segments. *)
Lemma split_append_slash (a b : string) :
  split slash (a ++ String slash b) = (split slash a ++ split slash b)%list.
Proof.
  induction a as [|c a IH].
  - simpl. rewrite ?Ascii.eqb_refl. reflexivity.
  - cbn [append split]. rewrite IH.
    destruct (Ascii.eqb c slash); [reflexivity|].
    destruct (split slash a) as [|seg segs] eqn:Hs.
    + exfalso. exact (split_not_nil a Hs).
    + reflexivity.
Qed.

Lemma split_noSlash (s : string) : noSlash s = true -> split slash s = [s].
Proof.
  induction s as [|c s IH]; intros H; simpl.
  - reflexivity.
  - simpl in H. apply andb_true_iff in H. destruct H as [Hc Hs].
    apply negb_true_iff in Hc. unfold is_slash in Hc. rewrite Hc.
    rewrite (IH Hs). reflexivity.
Qed.

Lemma split_segments_noSlash (s : string) :
  Forall (fun seg => noSlash seg = true) (split slash s).
Proof.
  induction s as [|c s IH]; simpl.
  - constructor; [reflexivity | constructor].
  - destruct (Ascii.eqb c slash) eqn:Hc.
    + constructor; [reflexivity | exact IH].
    + destruct (split slash s) as [|seg segs].
      * constructor; [|constructor]. simpl. unfold is_slash. rewrite Hc. reflexivity.
      * inversion IH; subst. constructor; [|assumption].
        simpl. unfold is_slash. rewrite Hc. simpl. assumption.
Qed.

Lemma intercalate_cons (x y : string) (l : list string) :
  intercalate "/" (x :: y :: l) = x ++ String slash (intercalate "/" (y :: l)).
Proof.
  reflexivity.
Qed.

Lemma intercalate_app (l1 l2 : list string) :
  l1 <> [] -> l2 <> [] ->
  intercalate "/" (l1 ++ l2) =
  intercalate "/" l1 ++ String slash (intercalate "/" l2).
Proof.
  intros H1 H2. induction l1 as [|x l1 IH]; [contradiction|].
  destruct l1 as [|y l1].
  - destruct l2 as [|z l2]; [contradiction | reflexivity].
  - change ((x :: y :: l1) ++ l2)%list with (x :: (y :: l1) ++ l2)%list.
    change ((y :: l1) ++ l2)%list with (y :: l1 ++ l2)%list.
    rewrite intercalate_cons.
    change (y :: l1 ++ l2)%list with ((y :: l1) ++ l2)%list.
    rewrite IH by discriminate.
    rewrite intercalate_cons, append_assoc. reflexivity.
Qed.

Lemma intercalate_not_empty (l : list string) :
  l <> [] -> Forall (fun x => x <> "") l -> intercalate "/" l <> "".
Proof.
  intros Hne Hall. destruct l as [|x l]; [contradiction|].
  inversion Hall; subst.
  destruct l as [|y l]; [assumption|].
  rewrite intercalate_cons. destruct x; [contradiction | discriminate].
Qed.

(** Joining slash-free segments and splitting again gives them back. *)
Lemma split_intercalate (l : list string) :
  l <> [] -> Forall (fun seg => noSlash seg = true) l ->
  split slash (intercalate "/" l) = l.
Proof.
  intros Hne Hall. induction l as [|x l IH]; [contradiction|].
  inversion Hall; subst.
  destruct l as [|y l].
  - simpl. apply split_noSlash. assumption.
  - rewrite intercalate_cons, split_append_slash.
    rewrite split_noSlash by assumption.
    rewrite IH; [reflexivity | discriminate | assumption].
Qed.

Lemma firstChar_append (a b : string) : a <> "" -> firstChar (a ++ b) = firstChar a.
Proof.
  destruct a; [contradiction | reflexivity].
Qed.

Lemma lastChar_cons (c : ascii) (s : string) :
  s <> "" -> lastChar (String c s) = lastChar s.
Proof.
  destruct s; [contradiction | reflexivity].
Qed.

Lemma lastChar_append (a b : string) : b <> "" -> lastChar (a ++ b) = lastChar b.
Proof.
  intros Hb. induction a as [|c a IH]; [reflexivity|].
  cbn [append]. rewrite lastChar_cons; [exact IH|].
  destruct a; [exact Hb | discriminate].
Qed.

Lemma lastChar_noSlash (s : string) (c : ascii) :
  noSlash s = true -> lastChar s = Some c -> is_slash c = false.
Proof.
  induction s as [|d s IH]; intros Hs Hl; [discriminate|].
  simpl in Hs. apply andb_true_iff in Hs. destruct Hs as [Hd Hs].
  destruct s as [|d' s'].
  - simpl in Hl. inversion Hl; subst. apply negb_true_iff. exact Hd.
  - apply IH; [exact Hs | exact Hl].
Qed.

End SegmentFacts.

(* ================================================================= *)
(** ** Facts about path.normalize and path.join *)

Section NormalizeFacts.
Import Str fspath.

Lemma normalizeStep_trivial (allow : bool) (res : list string) (seg : string) :
  trivialSeg seg = true -> normalizeStep allow res seg = res.
Proof.
  intros H. unfold normalizeStep. rewrite H. reflexivity.
Qed.

Lemma normalizeStep_wellFormed (allow : bool) (res : list string) (seg : string) :
  noSlash seg = true ->
  wellFormedStack allow res ->
  wellFormedStack allow (normalizeStep allow res seg).
Proof.
  intros Hseg Hres. unfold normalizeStep.
  destruct (trivialSeg seg) eqn:Htriv; [exact Hres|].
  destruct (seg =? "..") eqn:Hdots.
  - destruct res as [|top below].
    + destruct allow; [|exact I].
      split; [reflexivity|]. split; [reflexivity|].
      split; [|exact I]. intros _. split; [reflexivity | constructor].
    + destruct (top =? "..") eqn:Htop.
      * destruct allow; [|exact Hres].
        apply String.eqb_eq in Htop. subst top.
        pose proof Hres as (_ & _ & Hd & _).
        destruct (Hd eq_refl) as [_ Hbelow].
        split; [reflexivity|]. split; [reflexivity|].
        split; [|exact Hres].
        intros _. split; [reflexivity|].
        constructor; [reflexivity | exact Hbelow].
      * destruct Hres as (_ & _ & _ & Hb). exact Hb.
  - split; [exact Hseg|]. split; [exact Htriv|].
    split; [|exact Hres].
    intros Heq. subst seg. discriminate.
Qed.

Lemma fold_wellFormed (allow : bool) (segs res : list string) :
  Forall (fun seg => noSlash seg = true) segs ->
  wellFormedStack allow res ->
  wellFormedStack allow (fold_left (normalizeStep allow) segs res).
Proof.
  revert res. induction segs as [|seg segs IH]; intros res Hsegs Hres; simpl.
  - exact Hres.
  - inversion Hsegs; subst. apply IH; [assumption|].
    apply normalizeStep_wellFormed; assumption.
Qed.

Lemma normalizeString_wellFormed (path : string) (allow : bool) :
  wellFormedStack allow (normalizeString path allow).
Proof.
  unfold normalizeString. apply fold_wellFormed.
  - apply split_segments_noSlash.
  - exact I.
Qed.

(** Running the segments of a well-formed stack through [normalizeString]
    again rebuilds the stack. *)
Lemma fold_replay (allow : bool) (res : list string) :
  wellFormedStack allow res ->
  fold_left (normalizeStep allow) (List.rev res) [] = res.
Proof.
  induction res as [|seg below IH]; intros Hwf; [reflexivity|].
  destruct Hwf as (Hs & Ht & Hd & Hb).
  simpl List.rev. rewrite fold_left_app, (IH Hb). simpl.
  unfold normalizeStep. rewrite Ht.
  destruct (seg =? "..") eqn:Hdots; [|reflexivity].
  apply String.eqb_eq in Hdots. subst seg.
  destruct (Hd eq_refl) as [Hallow Hbelow]. subst allow.
  destruct below as [|top below']; [reflexivity|].
  inversion Hbelow; subst. reflexivity.
Qed.

Lemma wellFormed_noSlash (allow : bool) (res : list string) :
  wellFormedStack allow res -> Forall (fun seg => noSlash seg = true) res.
Proof.
  induction res as [|seg below IH]; intros Hwf; constructor.
  - apply Hwf.
  - apply IH. apply Hwf.
Qed.

Lemma wellFormed_not_empty (allow : bool) (res : list string) :
  wellFormedStack allow res -> Forall (fun seg => seg <> "") res.
Proof.
  induction res as [|seg below IH]; intros Hwf; constructor.
  - destruct Hwf as (_ & Ht & _). intros Heq. subst seg. discriminate.
  - apply IH. apply Hwf.
Qed.

Lemma normalize_render (path : string) :
  path <> "" ->
  normalize path =
  render (isAbsolute path) (trailingSeparator path)
         (normalizeString path (negb (isAbsolute path))).
Proof.
  intros Hne. unfold normalize, render.
  rewrite (isEmpty_false path Hne). reflexivity.
Qed.

Lemma render_nil (abs trail : bool) :
  render abs trail [] = if abs then "/" else if trail then "./" else ".".
Proof.
  reflexivity.
Qed.

Lemma render_cons (allow abs trail : bool) (seg : string) (below : list string) :
  wellFormedStack allow (seg :: below) ->
  render abs trail (seg :: below) =
  (if abs then "/" else "") ++ intercalate "/" (List.rev (seg :: below)) ++
  (if trail then "/" else "").
Proof.
  intros Hwf. unfold render.
  rewrite isEmpty_false; [reflexivity|].
  apply intercalate_not_empty.
  - simpl. destruct (List.rev below); discriminate.
  - apply Forall_rev. apply (wellFormed_not_empty allow). exact Hwf.
Qed.

Lemma render_not_empty (abs trail : bool) (res : list string) :
  render abs trail res <> "".
Proof.
  unfold render.
  destruct (isEmpty (intercalate "/" (List.rev res))) eqn:Hemp.
  - destruct abs; [discriminate|]. destruct trail; discriminate.
  - destruct abs; [discriminate|]. simpl.
    destruct (intercalate "/" (List.rev res)); [discriminate | discriminate].
Qed.

Lemma normalize_not_empty (path : string) : normalize path <> "".
Proof.
  destruct path as [|c path].
  - discriminate.
  - rewrite normalize_render by discriminate. apply render_not_empty.
Qed.

(** The stack of a rendered path is the stack it was rendered from. *)
Lemma normalizeString_render (allow abs trail : bool) (res : list string) :
  wellFormedStack allow res ->
  normalizeString (render abs trail res) allow = res.
Proof.
  intros Hwf. destruct res as [|seg below].
  - rewrite render_nil. destruct abs; [reflexivity|]. destruct trail; reflexivity.
  - rewrite (render_cons allow abs trail seg below Hwf).
    assert (Hsplit : split slash (intercalate "/" (List.rev (seg :: below)))
                     = List.rev (seg :: below)).
    { apply split_intercalate.
      - simpl. destruct (List.rev below); discriminate.
      - apply Forall_rev. apply (wellFormed_noSlash allow). exact Hwf. }
    unfold normalizeString.
    destruct abs, trail; cbn [append].
    + change (String "/" (intercalate "/" (List.rev (seg :: below)) ++ "/"))
        with ("" ++ String slash (intercalate "/" (List.rev (seg :: below)) ++ String slash "")).
      rewrite !split_append_slash, Hsplit. cbn [split app].
      cbn [fold_left]. rewrite normalizeStep_trivial by reflexivity.
      rewrite fold_left_app, (fold_replay allow _ Hwf). reflexivity.
    + change (String "/" (intercalate "/" (List.rev (seg :: below)) ++ ""))
        with ("" ++ String slash (intercalate "/" (List.rev (seg :: below)) ++ "")).
      rewrite append_nil_r, split_append_slash, Hsplit. cbn [split app].
      cbn [fold_left]. rewrite normalizeStep_trivial by reflexivity.
      apply (fold_replay allow _ Hwf).
    + change (intercalate "/" (List.rev (seg :: below)) ++ "/")
        with (intercalate "/" (List.rev (seg :: below)) ++ String slash "").
      rewrite split_append_slash, Hsplit.
      rewrite fold_left_app, (fold_replay allow _ Hwf). reflexivity.
    + rewrite append_nil_r, Hsplit. apply (fold_replay allow _ Hwf).
Qed.

End NormalizeFacts.

Section JoinFacts.
Import Str fspath.

Lemma isAbsolute_append (a b : string) :
  a <> "" -> isAbsolute (a ++ b) = isAbsolute a.
Proof.
  intros Ha. unfold isAbsolute. rewrite firstChar_append by exact Ha. reflexivity.
Qed.

Lemma trailingSeparator_append (a b : string) :
  b <> "" -> trailingSeparator (a ++ b) = trailingSeparator b.
Proof.
  intros Hb. unfold trailingSeparator. rewrite lastChar_append by exact Hb. reflexivity.
Qed.

Lemma trailingSeparator_noSlash (s : string) :
  noSlash s = true -> trailingSeparator s = false.
Proof.
  intros Hs. unfold trailingSeparator.
  destruct (lastChar s) as [c|] eqn:Hl; [|reflexivity].
  apply (lastChar_noSlash s c Hs Hl).
Qed.

Lemma isAbsolute_noSlash (s : string) :
  noSlash s = true -> isAbsolute s = false.
Proof.
  destruct s as [|c s]; intros Hs; [reflexivity|].
  simpl in Hs. apply andb_true_iff in Hs. destruct Hs as [Hc _].
  apply negb_true_iff in Hc. exact Hc.
Qed.

Lemma isAbsolute_intercalate (x : string) (l : list string) :
  x <> "" -> noSlash x = true -> isAbsolute (intercalate "/" (x :: l)) = false.
Proof.
  intros Hne Hx. destruct l as [|y l].
  - simpl. apply isAbsolute_noSlash. exact Hx.
  - rewrite intercalate_cons, isAbsolute_append by exact Hne.
    apply isAbsolute_noSlash. exact Hx.
Qed.

Lemma trailingSeparator_intercalate (l : list string) (x : string) :
  x <> "" -> noSlash x = true ->
  trailingSeparator (intercalate "/" (l ++ [x])) = false.
Proof.
  intros Hne Hx. destruct l as [|y l].
  - simpl. apply trailingSeparator_noSlash. exact Hx.
  - rewrite intercalate_app by discriminate.
    change (intercalate "/" [x]) with x.
    change (String slash x) with ("/" ++ x).
    rewrite <- append_assoc, trailingSeparator_append by exact Hne.
    apply trailingSeparator_noSlash. exact Hx.
Qed.

Lemma isAbsolute_render (abs trail : bool) (res : list string) :
  wellFormedStack (negb abs) res -> isAbsolute (render abs trail res) = abs.
Proof.
  intros Hwf. destruct res as [|seg below].
  - rewrite render_nil. destruct abs; [reflexivity|]. destruct trail; reflexivity.
  - rewrite (render_cons _ abs trail seg below Hwf).
    destruct abs; [reflexivity|]. cbn [append].
    pose proof (wellFormed_noSlash _ _ Hwf) as Hns.
    pose proof (wellFormed_not_empty _ _ Hwf) as Hne.
    apply Forall_rev in Hns. apply Forall_rev in Hne.
    destruct (List.rev (seg :: below)) as [|x l] eqn:Hrev.
    + simpl in Hrev. destruct (List.rev below); discriminate.
    + inversion Hns; subst. inversion Hne; subst.
      rewrite isAbsolute_append.
      * apply isAbsolute_intercalate; assumption.
      * apply intercalate_not_empty; [discriminate | assumption].
Qed.

Lemma trailingSeparator_render (abs trail : bool) (seg : string) (below : list string) :
  wellFormedStack (negb abs) (seg :: below) ->
  trailingSeparator (render abs trail (seg :: below)) = trail.
Proof.
  intros Hwf. rewrite (render_cons _ abs trail seg below Hwf).
  destruct Hwf as (Hs & Ht & _ & Hb).
  assert (Hne : seg <> "") by (intros Heq; subst seg; discriminate).
  destruct trail.
  - rewrite <- append_assoc. rewrite trailingSeparator_append by discriminate.
    reflexivity.
  - rewrite append_nil_r. simpl List.rev.
    rewrite trailingSeparator_append.
    + apply trailingSeparator_intercalate; assumption.
    + apply intercalate_not_empty.
      * destruct (List.rev below); discriminate.
      * apply Forall_app. split; [|constructor; [exact Hne | constructor]].
        apply Forall_rev.
        apply (wellFormed_not_empty (negb abs)). exact Hb.
Qed.

Lemma normalize_idempotent (path : string) :
  normalize (normalize path) = normalize path.
Proof.
  destruct path as [|c path]; [reflexivity|].
  set (p := String c path).
  assert (Hp : p <> "") by discriminate.
  rewrite (normalize_render p Hp).
  set (abs := isAbsolute p). set (trail := trailingSeparator p).
  pose proof (normalizeString_wellFormed p (negb abs)) as Hwf.
  set (res := normalizeString p (negb abs)) in *.
  rewrite (normalize_render (render abs trail res)) by apply render_not_empty.
  rewrite (isAbsolute_render abs trail res Hwf).
  rewrite (normalizeString_render (negb abs) abs trail res Hwf).
  destruct res as [|seg below].
  - rewrite !render_nil. destruct abs; [reflexivity|]. destruct trail; reflexivity.
  - rewrite (trailingSeparator_render abs trail seg below Hwf). reflexivity.
Qed.

Lemma normalizeString_append_slash (a b : string) (allow : bool) :
  normalizeString (a ++ String slash b) allow =
  fold_left (normalizeStep allow) (split slash b) (normalizeString a allow).
Proof.
  unfold normalizeString. rewrite split_append_slash, fold_left_app. reflexivity.
Qed.

(** Normalising the front of a path first changes nothing. *)
Lemma normalize_append_slash (path rest : string) :
  path <> "" ->
  normalize (normalize path ++ String slash rest) =
  normalize (path ++ String slash rest).
Proof.
  intros Hp.
  pose proof (normalize_not_empty path) as Hn.
  rewrite (normalize_render (normalize path ++ String slash rest))
    by (intros H; apply (f_equal isEmpty) in H; rewrite isEmpty_append in H;
        [discriminate | exact Hn]).
  rewrite (normalize_render (path ++ String slash rest))
    by (intros H; apply (f_equal isEmpty) in H; rewrite isEmpty_append in H;
        [discriminate | exact Hp]).
  rewrite !isAbsolute_append by assumption.
  rewrite !(trailingSeparator_append _ (String slash rest)) by discriminate.
  rewrite !normalizeString_append_slash.
  rewrite (normalize_render path Hp).
  pose proof (normalizeString_wellFormed path (negb (isAbsolute path))) as Hwf.
  rewrite (isAbsolute_render _ _ _ Hwf).
  rewrite (normalizeString_render _ _ _ _ Hwf).
  reflexivity.
Qed.

Lemma filter_nonEmpty_all (l : list string) :
  Forall (fun x => x <> "") (filter nonEmpty l).
Proof.
  apply Forall_forall. intros x Hin. apply filter_In in Hin.
  destruct Hin as [_ Hx]. intros Heq. subst x. discriminate.
Qed.

Lemma join_parts (args : list string) :
  filter nonEmpty args <> [] ->
  join args = normalize (intercalate "/" (filter nonEmpty args)).
Proof.
  intros Hne. unfold join.
  destruct (filter nonEmpty args); [contradiction | reflexivity].
Qed.

(** [join(join(...front), last)] is [join(...front, last)] as soon as one
    of the front arguments is not empty. *)
Lemma join_snoc (front : list string) (last : string) :
  filter nonEmpty front <> [] ->
  join [join front; last] = join (front ++ [last]).
Proof.
  intros Hne.
  pose proof (intercalate_not_empty _ Hne (filter_nonEmpty_all front)) as Hx.
  rewrite (join_parts front Hne).
  set (x := intercalate "/" (filter nonEmpty front)) in *.
  pose proof (normalize_not_empty x) as Hn.
  rewrite (join_parts (front ++ [last])).
  - rewrite filter_app. fold x.
    unfold join. cbn [filter].
    unfold nonEmpty at 1. rewrite (isEmpty_false _ Hn). cbn [negb].
    destruct last as [|c last]; cbn [filter nonEmpty isEmpty negb].
    + rewrite app_nil_r. fold x. cbn [intercalate]. apply normalize_idempotent.
    + rewrite intercalate_app by (try exact Hne; discriminate). fold x.
      change (intercalate "/" [normalize x; String c last])
        with (normalize x ++ String slash (String c last)).
      change (intercalate "/" [String c last]) with (String c last).
      apply normalize_append_slash. exact Hx.
  - rewrite filter_app. intros H. apply app_eq_nil in H. destruct H as [H _].
    contradiction.
Qed.

Lemma dirname_not_empty (path : string) : dirname path <> "".
Proof.
  unfold dirname. destruct path as [|c0 rest]; [discriminate|].
  destruct (dropWhile (fun c => negb (is_slash c)) (dropWhile is_slash (Str.rev rest))).
  - destruct (is_slash c0); discriminate.
  - destruct (is_slash c0 && isEmpty s); discriminate.
Qed.

End JoinFacts.

(* ================================================================= *)
(** ** Facts about path.dirname and path.basename *)

Section DirnameFacts.
Import Str fspath.

Lemma append_not_empty_r (a b : string) : b <> "" -> a ++ b <> "".
Proof.
  intros Hb H. destruct a; [exact (Hb H) | discriminate].
Qed.

Lemma rev_append (a b : string) : Str.rev (a ++ b) = Str.rev b ++ Str.rev a.
Proof.
  induction a as [|c a IH]; simpl.
  - rewrite append_nil_r. reflexivity.
  - rewrite IH, append_assoc. reflexivity.
Qed.

Lemma rev_involutive (s : string) : Str.rev (Str.rev s) = s.
Proof.
  induction s as [|c s IH]; simpl; [reflexivity|].
  rewrite rev_append, IH. reflexivity.
Qed.

Lemma rev_not_empty (s : string) : s <> "" -> Str.rev s <> "".
Proof.
  destruct s as [|c s]; intros H; [contradiction|].
  simpl. apply append_not_empty_r. discriminate.
Qed.

Lemma firstChar_rev (s : string) : firstChar (Str.rev s) = lastChar s.
Proof.
  induction s as [|c s IH]; [reflexivity|].
  destruct s as [|d s]; [reflexivity|].
  cbn [Str.rev] in *. rewrite firstChar_append; [exact IH|].
  apply append_not_empty_r. discriminate.
Qed.

Lemma takeWhile_dropWhile (q : ascii -> bool) (s : string) :
  takeWhile q s ++ dropWhile q s = s.
Proof.
  induction s as [|c s IH]; simpl; [reflexivity|].
  destruct (q c); simpl; [rewrite IH|]; reflexivity.
Qed.

Lemma dropWhile_head (q : ascii -> bool) (s : string) (y : ascii) (t : string) :
  dropWhile q s = String y t -> q y = false.
Proof.
  induction s as [|c s IH]; simpl; [discriminate|].
  destruct (q c) eqn:Hc; [exact IH|].
  intros H. inversion H; subst. exact Hc.
Qed.

Lemma takeWhile_stop (q : ascii -> bool) (s : string) (y : ascii) (t : string) :
  q y = false -> takeWhile q (takeWhile q s ++ String y t) = takeWhile q s.
Proof.
  intros Hy. induction s as [|c s IH]; simpl.
  - rewrite Hy. reflexivity.
  - destruct (q c) eqn:Hc; simpl.
    + rewrite Hc, IH. reflexivity.
    + rewrite Hy. reflexivity.
Qed.

Lemma takeWhile_append_all (q : ascii -> bool) (s t : string) :
  dropWhile q s = "" -> takeWhile q (s ++ t) = s ++ takeWhile q t.
Proof.
  induction s as [|c s IH]; simpl; [reflexivity|].
  destruct (q c); [|discriminate].
  intros H. rewrite (IH H). reflexivity.
Qed.

Lemma dropWhile_first (q : ascii -> bool) (c : ascii) (s : string) :
  q c = false -> dropWhile q (String c s) = String c s.
Proof.
  intros H. simpl. rewrite H. reflexivity.
Qed.

Lemma significant_append_slash (a b : string) :
  significant (a ++ String slash b) = (significant a ++ significant b)%list.
Proof.
  unfold significant. rewrite split_append_slash, filter_app. reflexivity.
Qed.

Lemma fold_significant (allow : bool) (segs res : list string) :
  fold_left (normalizeStep allow) segs res =
  fold_left (normalizeStep allow)
            (filter (fun seg => negb (trivialSeg seg)) segs) res.
Proof.
  revert res. induction segs as [|seg segs IH]; intros res; simpl; [reflexivity|].
  destruct (trivialSeg seg) eqn:Ht; simpl.
  - rewrite normalizeStep_trivial by exact Ht. apply IH.
  - apply IH.
Qed.

(** [normalize] depends on a non-empty path through three things: whether
    it starts with a slash, whether it ends with one, and its significant
    segments. *)
Lemma normalize_congr (x y : string) :
  x <> "" -> y <> "" ->
  isAbsolute x = isAbsolute y ->
  trailingSeparator x = trailingSeparator y ->
  significant x = significant y ->
  normalize x = normalize y.
Proof.
  intros Hx Hy Habs Htrail Hsig.
  rewrite (normalize_render x Hx), (normalize_render y Hy).
  rewrite Habs, Htrail. f_equal.
  unfold normalizeString.
  rewrite (fold_significant _ (split slash x)), (fold_significant _ (split slash y)).
  unfold significant in Hsig. rewrite Hsig. reflexivity.
Qed.

(** A non-empty path that does not end with a slash is its directory part,
    a slash and its last segment; [dirname] is the directory part up to
    slashes, [basename] the last segment. *)
Lemma dirname_basename_cases (p : string) :
  p <> "" ->
  trailingSeparator p = false ->
  basename p <> "" /\
  ((p = basename p /\ dirname p = "." /\ isAbsolute p = false)
   \/ (p = String slash (basename p) /\ dirname p = "/")
   \/ (exists d,
          d <> "" /\ p = d ++ String slash (basename p) /\
          isAbsolute (dirname p) = isAbsolute d /\
          significant (dirname p) = significant d)).
Proof.
  intros Hne Htrail.
  destruct p as [|c0 rest]; [contradiction|]. clear Hne.
  destruct rest as [|c1 rest'].
  - (* a single character, not a slash *)
    unfold trailingSeparator in Htrail. simpl in Htrail.
    unfold basename, dirname. simpl. rewrite Htrail. simpl. rewrite Htrail. simpl.
    split; [discriminate|]. left.
    split; [reflexivity|]. split; [reflexivity|].
    unfold isAbsolute. simpl. exact Htrail.
  - remember (String c1 rest') as rest eqn:Erest.
    assert (Hrest : rest <> "") by (subst rest; discriminate).
    clear Erest c1 rest'.
    set (ns := fun c : ascii => negb (is_slash c)).
    assert (HlastR : firstChar (Str.rev rest) = lastChar rest) by apply firstChar_rev.
    assert (Hlast : lastChar (String c0 rest) = lastChar rest)
      by (apply lastChar_cons; exact Hrest).
    unfold trailingSeparator in Htrail. rewrite Hlast, <- HlastR in Htrail.
    destruct (Str.rev rest) as [|x R'] eqn:HR.
    { exfalso. apply (rev_not_empty rest Hrest). exact HR. }
    simpl in Htrail.
    assert (HdropR : dropWhile is_slash (String x R') = String x R')
      by (apply dropWhile_first; exact Htrail).
    assert (Hrevp : Str.rev (String c0 rest) = String x R' ++ String c0 "")
      by (cbn [Str.rev]; rewrite HR; reflexivity).
    assert (Hbase : basename (String c0 rest) =
                    Str.rev (takeWhile ns (String x R' ++ String c0 ""))).
    { unfold basename. rewrite Hrevp. cbn [append].
      rewrite dropWhile_first by exact Htrail. reflexivity. }
    assert (Hdir : dirname (String c0 rest) =
                   match dropWhile ns (String x R') with
                   | "" => if is_slash c0 then "/" else "."
                   | String _ before =>
                       if is_slash c0 && isEmpty before then "//"
                       else String c0 (Str.rev before)
                   end).
    { unfold dirname. rewrite HR, HdropR. reflexivity. }
    assert (Hrestrev : rest = Str.rev (String x R'))
      by (rewrite <- HR, rev_involutive; reflexivity).
    pose proof (takeWhile_dropWhile ns (String x R')) as Hsplit.
    assert (Htb : takeWhile ns (String x R') <> "").
    { simpl. unfold ns at 1. rewrite Htrail. discriminate. }
    destruct (dropWhile ns (String x R')) as [|y before] eqn:Hsc.
    + (* no slash after the first character *)
      rewrite (takeWhile_append_all ns _ _ Hsc) in Hbase.
      destruct (is_slash c0) eqn:Hc0.
      * assert (Hb : basename (String c0 rest) = rest).
        { rewrite Hbase.
          assert (Ht : takeWhile ns (String c0 "") = "")
            by (cbn [takeWhile]; unfold ns; rewrite Hc0; reflexivity).
          rewrite Ht, append_nil_r, Hrestrev. reflexivity. }
        rewrite Hb. split; [exact Hrest|]. right. left.
        apply is_slash_true in Hc0. subst c0.
        split; [reflexivity | exact Hdir].
      * assert (Hb : basename (String c0 rest) = String c0 rest).
        { rewrite Hbase.
          assert (Ht : takeWhile ns (String c0 "") = String c0 "")
            by (cbn [takeWhile]; unfold ns; rewrite Hc0; reflexivity).
          rewrite Ht, <- Hrevp. apply rev_involutive. }
        rewrite Hb. split; [discriminate|]. left.
        split; [reflexivity|]. split; [exact Hdir|].
        unfold isAbsolute. simpl. exact Hc0.
    + (* a slash before the last segment *)
      pose proof (dropWhile_head ns _ _ _ Hsc) as Hy.
      unfold ns in Hy. apply negb_false_iff in Hy. apply is_slash_true in Hy. subst y.
      set (tb := takeWhile ns (String x R')) in *.
      assert (Hb : basename (String c0 rest) = Str.rev tb).
      { rewrite Hbase. rewrite <- Hsplit. rewrite append_assoc.
        cbn [append]. unfold tb. rewrite takeWhile_stop; [reflexivity|].
        unfold ns. reflexivity. }
      rewrite Hb. split; [apply rev_not_empty; exact Htb|].
      right. right. exists (String c0 (Str.rev before)).
      split; [discriminate|]. split.
      * rewrite Hrestrev, <- Hsplit, rev_append. cbn [Str.rev append].
        rewrite append_assoc. reflexivity.
      * rewrite Hdir.
        destruct (is_slash c0) eqn:Hc0; [|split; reflexivity].
        destruct before as [|z before']; [|split; reflexivity].
        apply is_slash_true in Hc0. subst c0. split; reflexivity.
Qed.

End DirnameFacts.

(* ================================================================= *)
(** ** The canonical local file path *)

Section LocalFilePathFacts.
Import Str fspath Notebook.

(** What [dirname(p)], a slash and [basename(p) + e] share with [p + e]. *)
Lemma dirname_basename_tail (p e : string) :
  p <> "" ->
  trailingSeparator p = false ->
  let k1 := dirname p ++ String slash (basename p ++ e) in
  let k2 := p ++ e in
  basename p ++ e <> "" /\
  isAbsolute k1 = isAbsolute k2 /\
  trailingSeparator k1 = trailingSeparator k2 /\
  significant k1 = significant k2.
Proof.
  intros Hp Htrail. cbv zeta.
  destruct (dirname_basename_cases p Hp Htrail) as [Hb Hcases].
  pose proof (dirname_not_empty p) as Hdn.
  remember (basename p) as b eqn:Eb. remember (dirname p) as dn eqn:Edn.
  clear Eb Edn Htrail.
  assert (Hf : b ++ e <> "") by (destruct b; [contradiction | discriminate]).
  split; [exact Hf|].
  rewrite (isAbsolute_append dn) by exact Hdn.
  rewrite (isAbsolute_append p e Hp).
  rewrite significant_append_slash.
  change (dn ++ String slash (b ++ e)) with (dn ++ "/" ++ (b ++ e)).
  rewrite <- append_assoc. rewrite trailingSeparator_append by exact Hf.
  destruct Hcases as [(Hpb & Hd & Habs) | [(Hpb & Hd) | (d & Hdne & Hpb & Habs & Hsig)]].
  - subst p dn. rewrite Habs. repeat split.
  - subst p dn. split; [reflexivity|]. split.
    + change (String slash b ++ e) with ("/" ++ (b ++ e)).
      rewrite (trailingSeparator_append "/" (b ++ e) Hf). reflexivity.
    + change (String slash b ++ e) with ("" ++ String slash (b ++ e)).
      rewrite significant_append_slash. reflexivity.
  - subst p. rewrite Habs, Hsig.
    split; [rewrite isAbsolute_append by exact Hdne; reflexivity|].
    rewrite append_assoc. cbn [append]. split.
    + change (d ++ String slash (b ++ e)) with (d ++ "/" ++ (b ++ e)).
      rewrite <- append_assoc.
      rewrite (trailingSeparator_append (d ++ "/") (b ++ e) Hf). reflexivity.
    + rewrite significant_append_slash. reflexivity.
Qed.

(** Joining [dirname(p)] and [basename(p) + e] after some arguments is
    joining [p + e] after them. *)
Lemma join_dirname_basename (front : list string) (p e : string) :
  p <> "" ->
  trailingSeparator p = false ->
  join (front ++ [dirname p; basename p ++ e]) = join (front ++ [p ++ e]).
Proof.
  intros Hp Htrail.
  destruct (dirname_basename_tail p e Hp Htrail) as (Hf & Habs & Htr & Hsig).
  pose proof (dirname_not_empty p) as Hd.
  assert (Hpe : p ++ e <> "") by (destruct p; [contradiction | discriminate]).
  assert (Hk1 : dirname p ++ String slash (basename p ++ e) <> "").
  { destruct (dirname p); [contradiction | discriminate]. }
  assert (F1 : filter nonEmpty (front ++ [dirname p; basename p ++ e]) =
               (filter nonEmpty front ++ [dirname p; (basename p ++ e)%string])%list).
  { rewrite filter_app. cbn [filter]. unfold nonEmpty at 2 3.
    rewrite (isEmpty_false _ Hd), (isEmpty_false _ Hf). reflexivity. }
  assert (F2 : filter nonEmpty (front ++ [p ++ e]) =
               (filter nonEmpty front ++ [(p ++ e)%string])%list).
  { rewrite filter_app. cbn [filter]. unfold nonEmpty at 2.
    rewrite (isEmpty_false _ Hpe). reflexivity. }
  rewrite (join_parts (front ++ [dirname p; basename p ++ e]))
    by (rewrite F1; destruct (filter nonEmpty front); discriminate).
  rewrite (join_parts (front ++ [p ++ e]))
    by (rewrite F2; destruct (filter nonEmpty front); discriminate).
  rewrite F1, F2.
  destruct (filter nonEmpty front) as [|a parts] eqn:Hparts.
  - cbn [app]. change (intercalate "/" [dirname p; basename p ++ e])
      with (dirname p ++ String slash (basename p ++ e)).
    change (intercalate "/" [p ++ e]) with (p ++ e).
    apply normalize_congr; assumption.
  - pose proof (filter_nonEmpty_all front) as Hall. rewrite Hparts in Hall.
    assert (Hx : intercalate "/" (a :: parts) <> "")
      by (apply intercalate_not_empty; [discriminate | exact Hall]).
    rewrite !intercalate_app by discriminate.
    change (intercalate "/" [dirname p; basename p ++ e])
      with (dirname p ++ String slash (basename p ++ e)).
    change (intercalate "/" [p ++ e]) with (p ++ e).
    set (x := intercalate "/" (a :: parts)) in *.
    apply normalize_congr.
    + destruct x; [contradiction | discriminate].
    + destruct x; [contradiction | discriminate].
    + rewrite !isAbsolute_append by exact Hx. reflexivity.
    + change (x ++ String slash (dirname p ++ String slash (basename p ++ e)))
        with (x ++ "/" ++ (dirname p ++ String slash (basename p ++ e))).
      change (x ++ String slash (p ++ e)) with (x ++ "/" ++ (p ++ e)).
      rewrite <- (append_assoc x "/" (dirname p ++ String slash (basename p ++ e))).
      rewrite <- (append_assoc x "/" (p ++ e)).
      rewrite (trailingSeparator_append (x ++ "/") _ Hk1).
      rewrite (trailingSeparator_append (x ++ "/") _ Hpe).
      exact Htr.
    + rewrite (significant_append_slash x
                 (dirname p ++ String slash (basename p ++ e))).
      rewrite (significant_append_slash x (p ++ e)), Hsig. reflexivity.
Qed.

Variable E : Host.

(** C7, as amended.  The canonical local file path is the join of the sync
    root folder, the workspace subfolder, the dirname of the remote path
    and its basename followed by the active local extension.  When the
    remote path is not empty and does not end with a slash, that is also
    the join of the sync root folder, the workspace subfolder and the
    remote path followed by the extension. *)
Theorem localFilePath_is_join :
  forall n : DatabricksWorkspaceNotebook,
    localFilePath E n =
    join [localSyncFolder E; WorkspaceSubFolder E; dirname (path n);
          basename (path n) ++ localFileExtension E n]
    /\
    (path n <> "" ->
     trailingSeparator (path n) = false ->
     localFilePath E n =
     join [localSyncFolder E; WorkspaceSubFolder E;
           path n ++ localFileExtension E n]).
Proof.
  intros n.
  assert (Hflat :
    localFilePath E n =
    join [localSyncFolder E; WorkspaceSubFolder E; dirname (path n);
          basename (path n) ++ localFileExtension E n]).
  { unfold localFilePath, localFolderPath.
    rewrite join_snoc; [reflexivity|].
    intros Hnil.
    assert (Hin : In (dirname (path n))
                     (filter nonEmpty
                        [localSyncFolder E; WorkspaceSubFolder E; dirname (path n)])).
    { apply filter_In. split; [simpl; auto|].
      unfold nonEmpty. rewrite isEmpty_false by apply dirname_not_empty. reflexivity. }
    rewrite Hnil in Hin. exact Hin. }
  split; [exact Hflat|].
  intros Hp Htrail. rewrite Hflat.
  apply (join_dirname_basename [localSyncFolder E; WorkspaceSubFolder E]); assumption.
Qed.

End LocalFilePathFacts.

(** C7, as stated, fails on a remote path that ends with a slash: for
    [/a/b/] the canonical local file is [/sync/Workspace/a/b.py], while the
    join with the path followed by the extension is
    [/sync/Workspace/a/b/.py]. *)
Lemma localFilePath_trailing_slash :
  Notebook.localFilePath Scenario.hostNoFiles Scenario.slashNotebook
  = "/sync/Workspace/a/b.py" /\
  fspath.join [localSyncFolder Scenario.hostNoFiles;
               WorkspaceSubFolder Scenario.hostNoFiles;
               Notebook.path Scenario.slashNotebook ++
               Notebook.localFileExtension Scenario.hostNoFiles Scenario.slashNotebook]
  = "/sync/Workspace/a/b/.py".
Proof.
  vm_compute. split; reflexivity.
Qed.

(* ================================================================= *)
(** ** The theorems at concrete nodes *)

(** The node [/Users/a/nb], built while nothing was on disk and so bound
    to [.py], once [nb.ipynb] is on disk: [.py] misses, [.ipynb] hits, and
    the mapping becomes the one of [.ipynb]. *)
Lemma localPathExists_first_match_witness :
  Notebook.localPathExists Scenario.hostAnyExtension
    (Scenario.userNotebook Scenario.hostNothingYet)
  = (true,
     Notebook.set_languageFileExtension
       (fromExtension Scenario.hostAnyExtension ".ipynb")
       (Scenario.userNotebook Scenario.hostNothingYet))
  /\
  Notebook._languageFileExtension
    (snd (Notebook.localPathExists Scenario.hostAnyExtension
            (Scenario.userNotebook Scenario.hostNothingYet)))
  = Some (fromExtension Scenario.hostAnyExtension ".ipynb").
Proof.
  assert (Hmiss : forall x, In x [".py"] ->
            existsSync Scenario.hostAnyExtension
              (Notebook.pathToCheck Scenario.hostAnyExtension
                 (Scenario.userNotebook Scenario.hostNothingYet) x) = false).
  { intros x [Hx | []]. subst x. vm_compute. reflexivity. }
  pose proof (proj1 (localPathExists_first_match Scenario.hostAnyExtension
                       (Scenario.userNotebook Scenario.hostNothingYet) eq_refl)
                    [".py"] ".ipynb" [] eq_refl Hmiss eq_refl) as (Hrun & Hmap & _).
  split; [exact Hrun | exact Hmap].
Defined.

(** C9 at [/Users/a/nb] with [nb.py] on disk. *)
Lemma localPathExists_canonical_only_witness :
  Notebook.localPathExists Scenario.hostCanonical
    (Scenario.userNotebook Scenario.hostCanonical)
  = (existsSync Scenario.hostCanonical
       (Notebook.localFilePath Scenario.hostCanonical
          (Scenario.userNotebook Scenario.hostCanonical)),
     Scenario.userNotebook Scenario.hostCanonical)
  /\ Notebook._languageFileExtension
       (snd (Notebook.localPathExists Scenario.hostCanonical
               (Scenario.userNotebook Scenario.hostCanonical)))
     = Notebook._languageFileExtension (Scenario.userNotebook Scenario.hostCanonical).
Proof.
  exact (localPathExists_canonical_only Scenario.hostCanonical
           (Scenario.userNotebook Scenario.hostCanonical) eq_refl).
Defined.

(** C5, as amended, at a node bound to [.ipynb], which is refused, and at
    a node bound to [.py], whose online copy is fetched and compared. *)
Lemma compare_refuses_notebook_format_witness :
  Notebook.compare Scenario.hostCanonical
    (Scenario.packagedNotebook Scenario.hostCanonical) []
  = (Act.Normal tt,
     [ShowErrorMessage
        "DIFF is currently not supported when using notebooks. You can change the export formats to work around this issue!"])
  /\
  Notebook.compare Scenario.hostCanonical
    (Scenario.userNotebook Scenario.hostCanonical) []
  = (Act.Normal tt,
     [OpenTempFile "" "nb-ONLINE" false;
      DownloadWorkspaceItem "/Users/a/nb" "/tmp/nb-ONLINE.py" "SOURCE";
      ShowInformationMessage "Download of item /Users/a/nb) finished!";
      ShowDiff (Some "/tmp/nb-ONLINE.py") "/sync/Workspace/Users/a/nb.py"]).
Proof.
  split.
  - exact (proj1 (compare_refuses_notebook_format Scenario.hostCanonical
                    (Scenario.packagedNotebook Scenario.hostCanonical)
                    (Scenario.mapperOf ".ipynb") [] eq_refl) eq_refl).
  - exact (proj1 (proj1 (proj2 (compare_refuses_notebook_format Scenario.hostCanonical
                                  (Scenario.userNotebook Scenario.hostCanonical)
                                  (Scenario.mapperOf ".py") [] eq_refl) eq_refl)
                        "/tmp/nb-ONLINE" eq_refl) eq_refl).
Defined.


(** C6, as amended, at [/Users/a/nb] with [nb.py] on disk: the tooltip is
    the path and the line [[Synced]], the only marker it contains. *)
Lemma tooltip_sync_marker_witness :
  fst (Notebook.tooltip Scenario.hostCanonical
         (Scenario.userNotebook Scenario.hostCanonical))
  = "/Users/a/nb" ++ Str.newline ++ "[Synced]" ++ Str.newline
  /\ Str.includes "[Online only]"
       (fst (Notebook.tooltip Scenario.hostCanonical
               (Scenario.userNotebook Scenario.hostCanonical))) = false
  /\ Str.includes "[Offline only]"
       (fst (Notebook.tooltip Scenario.hostCanonical
               (Scenario.userNotebook Scenario.hostCanonical))) = false
  /\ Str.includes "[Synced]"
       (fst (Notebook.tooltip Scenario.hostCanonical
               (Scenario.userNotebook Scenario.hostCanonical))) = true.
Proof.
  pose proof (tooltip_sync_marker Scenario.hostCanonical
                (Scenario.userNotebook Scenario.hostCanonical) eq_refl)
    as [Hshape Hmarkers].
  split; [exact Hshape|].
  exact (Hmarkers eq_refl eq_refl eq_refl).
Defined.

(** C7, as amended, at [/Users/a/nb]: the canonical local file path is the
    join of [/sync], [Workspace] and [/Users/a/nb.py]. *)
Lemma localFilePath_is_join_witness :
  Notebook.localFilePath Scenario.hostCanonical
    (Scenario.userNotebook Scenario.hostCanonical)
  = fspath.join ["/sync"; "Workspace"; "/Users/a/nb" ++ ".py"].
Proof.
  apply (proj2 (localFilePath_is_join Scenario.hostCanonical
                  (Scenario.userNotebook Scenario.hostCanonical))).
  - discriminate.
  - reflexivity.
Defined.

(* ================================================================= *)
(** ** What the accessors keep *)

Section ReboundFacts.
Import Notebook.

Variable E : Host.

Lemma rebound_refl (n : DatabricksWorkspaceNotebook) : rebound E n n.
Proof.
  left. reflexivity.
Qed.

Lemma rebound_trans (n n1 n2 : DatabricksWorkspaceNotebook) :
  rebound E n n1 -> rebound E n1 n2 -> rebound E n n2.
Proof.
  intros [H1 | (x & Hx & H1)] [H2 | (y & Hy & H2)]; subst.
  - left. reflexivity.
  - right. exists y. split; [exact Hy | reflexivity].
  - right. exists x. split; [exact Hx | reflexivity].
  - right. exists y. split; [exact Hy | reflexivity].
Qed.

Lemma rebinding_pure {A} (f : DatabricksWorkspaceNotebook -> A) : rebinding E (pure f).
Proof.
  intros n. apply rebound_refl.
Qed.

Lemma rebinding_const {A} (a : A) : rebinding E (const a).
Proof.
  intros n. apply rebound_refl.
Qed.

Lemma rebinding_seq {A B} (r : Read A) (k : A -> Read B) :
  rebinding E r -> (forall a, rebinding E (k a)) -> rebinding E (seq r k).
Proof.
  intros Hr Hk n. rewrite seq_eq.
  apply (rebound_trans n (snd (r n))); [apply Hr | apply Hk].
Qed.

Lemma rebinding_andR (a b : Read bool) :
  rebinding E a -> rebinding E b -> rebinding E (andR a b).
Proof.
  intros Ha Hb. unfold andR. apply rebinding_seq; [exact Ha|].
  intros [|]; [exact Hb | apply rebinding_const].
Qed.

Lemma rebinding_notR (a : Read bool) : rebinding E a -> rebinding E (notR a).
Proof.
  intros Ha. unfold notR. apply rebinding_seq; [exact Ha|].
  intros x. apply rebinding_const.
Qed.

Lemma rebinding_probe (exts all : list string) (n : DatabricksWorkspaceNotebook) :
  (forall x, In x exts -> In x all) ->
  snd (probe E exts n) = n \/
  exists ext, In ext all /\
              snd (probe E exts n) = set_languageFileExtension (fromExtension E ext) n.
Proof.
  induction exts as [|ext exts IH]; intros Hsub; simpl.
  - left. reflexivity.
  - destruct (existsSync E (pathToCheck E n ext)); simpl.
    + right. exists ext. split; [apply Hsub; left; reflexivity | reflexivity].
    + apply IH. intros x Hx. apply Hsub. right. exact Hx.
Qed.

Lemma rebinding_localPathExists : rebinding E (localPathExists E).
Proof.
  intros n. unfold localPathExists.
  destruct (allowAllSupportedFileExtensions E).
  - apply (rebinding_probe _ (allLanguageFileExtensions E (_language n))).
    intros x Hx. exact Hx.
  - apply rebound_refl.
Qed.

Lemma rebinding_tooltip : rebinding E (tooltip E).
Proof.
  unfold tooltip.
  repeat first
    [ apply rebinding_localPathExists
    | apply rebinding_pure
    | apply rebinding_const
    | apply rebinding_andR
    | apply rebinding_notR
    | apply rebinding_seq
    | intros ? ].
Qed.

Lemma rebinding_contextValue : rebinding E (contextValue E).
Proof.
  unfold contextValue.
  apply rebinding_seq;
    [apply rebinding_andR; [apply rebinding_localPathExists | apply rebinding_pure]|].
  intros [|]; [apply rebinding_const|].
  apply rebinding_seq;
    [apply rebinding_andR;
     [apply rebinding_notR; apply rebinding_localPathExists | apply rebinding_pure]|].
  intros [|]; [apply rebinding_const|].
  apply rebinding_seq;
    [apply rebinding_andR;
     [apply rebinding_localPathExists | apply rebinding_notR; apply rebinding_pure]|].
  intros [|]; apply rebinding_const.
Qed.

Lemma rebinding_getIconPath (theme : string) : rebinding E (getIconPath E theme).
Proof.
  intros n. unfold getIconPath.
  destruct (negb (_isInitialized n)); [apply rebound_refl|].
  revert n.
  change (rebinding E
    (seq (andR (localPathExists E) (notR (pure onlinePathExists))) (fun c1 =>
     seq (andR (notR (localPathExists E)) (pure onlinePathExists)) (fun c2 =>
     const (Some (fspath.join
                    [rootPath E; "resources"; theme; "workspace";
                     "notebook" ++ (if c2 then "_ONLINE"
                                    else if c1 then "_OFFLINE" else "") ++ ".png"])))))).
  apply rebinding_seq;
    [apply rebinding_andR;
     [apply rebinding_localPathExists | apply rebinding_notR; apply rebinding_pure]|].
  intros c1.
  apply rebinding_seq;
    [apply rebinding_andR;
     [apply rebinding_notR; apply rebinding_localPathExists | apply rebinding_pure]|].
  intros c2. apply rebinding_const.
Qed.

(** X1.  Reading [localPathExists], [tooltip], [contextValue] or
    [getIconPath] changes at most the extension mapping of the node, and
    then to the mapper of an extension recognised for the node's language:
    path, id, language, online flag, initialisation flag and icons are
    kept, and a mapping that was defined stays defined. *)
Theorem accessors_only_rebind :
  forall (n : DatabricksWorkspaceNotebook) (theme : string) (n' : DatabricksWorkspaceNotebook),
    n' = snd (localPathExists E n) \/ n' = snd (tooltip E n) \/
    n' = snd (contextValue E n) \/ n' = snd (getIconPath E theme n) ->
    _path n' = _path n /\
    _object_id n' = _object_id n /\
    _language n' = _language n /\
    _onlinePathExists n' = _onlinePathExists n /\
    _isInitialized n' = _isInitialized n /\
    iconPath n' = iconPath n /\
    (_languageFileExtension n' = _languageFileExtension n \/
     exists ext,
       In ext (allLanguageFileExtensions E (_language n)) /\
       _languageFileExtension n' = Some (fromExtension E ext)).
Proof.
  intros n theme n' Hn'.
  assert (Hr : rebound E n n').
  { destruct Hn' as [H | [H | [H | H]]]; subst n'.
    - apply rebinding_localPathExists.
    - apply rebinding_tooltip.
    - apply rebinding_contextValue.
    - apply rebinding_getIconPath. }
  destruct Hr as [H | (x & Hx & H)]; subst n'.
  - repeat split. left. reflexivity.
  - repeat split. right. exists x. split; [exact Hx | reflexivity].
Qed.

End ReboundFacts.

(* ================================================================= *)
(** ** Construction *)

Section ConstructionFacts.
Import Notebook.

Variable E : Host.

Lemma rebound_fields (n n' : DatabricksWorkspaceNotebook) :
  rebound E n n' ->
  _path n' = _path n /\ _object_id n' = _object_id n /\
  _language n' = _language n /\ _onlinePathExists n' = _onlinePathExists n /\
  _isInitialized n' = _isInitialized n /\ iconPath n' = iconPath n /\
  (_languageFileExtension n <> None -> _languageFileExtension n' <> None).
Proof.
  intros [H | (x & _ & H)]; subst n'; repeat split; try (intros H; exact H).
  intros _. discriminate.
Qed.

(** The reads of [localPathExists] that [getIconPath] makes: one on a node
    that is not online, two in a row on a node that is. *)
Lemma getIconPath_reads (theme : string) (n : DatabricksWorkspaceNotebook) :
  let l1 := fst (localPathExists E n) in
  let l2 := fst (localPathExists E (snd (localPathExists E n))) in
  fst (getIconPath E theme n) =
  if _isInitialized n then
    Some (fspath.join
            [rootPath E; "resources"; theme; "workspace";
             "notebook" ++
             (if onlinePathExists n
              then (if l2 then "" else "_ONLINE")
              else (if l1 then "_OFFLINE" else "")) ++ ".png"])
  else None.
Proof.
  cbv zeta.
  pose proof (localPathExists_frame E n) as F1.
  pose proof (localPathExists_frame E (snd (localPathExists E n))) as F2.
  cbv zeta in F1, F2.
  destruct F1 as (_ & _ & _ & O1). destruct F2 as (_ & _ & _ & O2).
  rewrite O1 in O2.
  unfold getIconPath.
  destruct (_isInitialized n); cbn [negb fst]; [|reflexivity].
  repeat (rewrite ?seq_eq, ?andR_eq, ?notR_eq; cbv zeta; cbn [fst snd pure const]).
  unfold onlinePathExists in *.
  destruct (_onlinePathExists n) eqn:O;
    destruct (fst (localPathExists E n)) eqn:L1; cbn [negb fst snd];
    repeat (rewrite ?seq_eq, ?andR_eq, ?notR_eq, ?O1, ?O2, ?L1; cbv zeta;
            cbn [fst snd pure const negb]);
    try reflexivity;
    destruct (fst (localPathExists E (snd (localPathExists E n))));
    cbn [negb fst snd pure]; rewrite ?O1, ?O2; reflexivity.
Qed.

(** The node under construction before and after the icons are computed. *)
Lemma constructor_frame (p : string) (id : Z) (source : Source) (lang : LanguageOrMapper) :
  let n := constructor E p id source lang in
  _path n = p /\
  _object_id n = id /\
  _language n =
    match lang with
    | ALanguage l => l
    | AMapper m => LanguageFileExtensionMapper.language m
    end /\
  _onlinePathExists n = match source with Online => true | Local => false end /\
  _isInitialized n = true /\
  _languageFileExtension n <> None.
Proof.
  cbv zeta. unfold constructor.
  match goal with
  | |- context [getIconPath E "light" ?x] => set (n0 := x)
  end.
  pose proof (rebinding_getIconPath E "light" n0) as R1.
  destruct (getIconPath E "light" n0) as [light n1].
  cbn [fst snd] in R1.
  pose proof (rebinding_getIconPath E "dark" n1) as R2.
  destruct (getIconPath E "dark" n1) as [dark n2].
  cbn [fst snd] in R2.
  apply rebound_fields in R1. apply rebound_fields in R2.
  destruct R1 as (P1 & I1 & G1 & O1 & N1 & _ & M1).
  destruct R2 as (P2 & I2 & G2 & O2 & N2 & _ & M2).
  cbn. rewrite P2, P1, I2, I1, G2, G1, O2, O1, N2, N1.
  repeat split. apply M2, M1. discriminate.
Qed.

End ConstructionFacts.

(** X2.  A node built by the constructor keeps the path and the id it was
    given, has the language it was given or that of the mapper it was
    given, is online exactly when the source is "Online", is initialised,
    has a defined extension mapping, and has both icons defined; this
    whatever is on disk while the icons are computed. *)
Theorem constructor_fields :
  forall (E : Host) (p : string) (id : Z) (source : Notebook.Source)
         (lang : Notebook.LanguageOrMapper),
    let n := Notebook.constructor E p id source lang in
    Notebook.path n = p /\
    Notebook._object_id n = id /\
    Notebook._language n =
      match lang with
      | Notebook.ALanguage l => l
      | Notebook.AMapper m => LanguageFileExtensionMapper.language m
      end /\
    Notebook.onlinePathExists n =
      match source with Notebook.Online => true | Notebook.Local => false end /\
    Notebook._isInitialized n = true /\
    (exists m, Notebook._languageFileExtension n = Some m) /\
    (exists light dark, Notebook.iconPath n = (Some light, Some dark)).
Proof.
  intros E p id source lang. cbv zeta.
  destruct (constructor_frame E p id source lang) as (HP & HI & HG & HO & HN & HM).
  unfold Notebook.path, Notebook.onlinePathExists.
  repeat (split; [assumption|]). split.
  - destruct (Notebook._languageFileExtension _) as [m|].
    + exists m. reflexivity.
    + exfalso. apply HM. reflexivity.
  - unfold Notebook.constructor.
    match goal with
    | |- context [Notebook.getIconPath E "light" ?x] => set (n0 := x)
    end.
    pose proof (rebinding_getIconPath E "light" n0) as R1.
    pose proof (getIconPath_reads E "light" n0) as L1. cbv zeta in L1.
    destruct (Notebook.getIconPath E "light" n0) as [light n1].
    cbn [fst snd] in R1, L1.
    pose proof (getIconPath_reads E "dark" n1) as L2. cbv zeta in L2.
    destruct (Notebook.getIconPath E "dark" n1) as [dark n2].
    cbn [fst snd] in L2.
    apply rebound_fields in R1.
    destruct R1 as (_ & _ & _ & _ & N1 & _).
    rewrite N1 in L2. cbn in L1, L2. subst light dark.
    eexists. eexists. reflexivity.
Qed.

(** X3.  On a node made by [fromInterface], which is online, [contextValue]
    is decided by its first read of [localPathExists]: 'CAN_SYNC' when the
    read answers true, 'CAN_DOWNLOAD' when it answers false.  It is never
    'CAN_UPLOAD' and never undefined. *)
Theorem fromInterface_contextValue :
  forall (E0 E : Host) (item : iDatabricksWorkspaceItem.t),
    let n := Notebook.fromInterface E0 item in
    Notebook.path n = iDatabricksWorkspaceItem.path item /\
    Notebook.onlinePathExists n = true /\
    fst (Notebook.contextValue E n) =
      if fst (Notebook.localPathExists E n)
      then Some "CAN_SYNC" else Some "CAN_DOWNLOAD".
Proof.
  intros E0 E item. cbv zeta. unfold Notebook.fromInterface.
  destruct (constructor_frame E0 (iDatabricksWorkspaceItem.path item)
              (iDatabricksWorkspaceItem.object_id item) Notebook.Online
              (Notebook.ALanguage (iDatabricksWorkspaceItem.language item)))
    as (HP & _ & _ & HO & _).
  split; [exact HP|]. split; [exact HO|].
  rewrite contextValue_reads. cbv zeta. unfold Notebook.onlinePathExists. rewrite HO.
  destruct (fst (Notebook.localPathExists E _)) eqn:L1; cbn [andb]; [reflexivity|].
  rewrite (localPathExists_false_same E _ L1), L1. reflexivity.
Qed.

(** X4.  On a node of source "Local" the tooltip is the path, a line break
    and, when its one read of [localPathExists] answers true, the line
    [[Offline only]]; it never shows [[Online only]] or [[Synced]] lines. *)
Theorem local_tooltip :
  forall (E0 E : Host) (p : string) (id : Z) (lang : Notebook.LanguageOrMapper),
    let n := Notebook.constructor E0 p id Notebook.Local lang in
    fst (Notebook.tooltip E n) =
    p ++ Str.newline ++
    (if fst (Notebook.localPathExists E n)
     then "[Offline only]" ++ Str.newline else "").
Proof.
  intros E0 E p id lang. cbv zeta.
  destruct (constructor_frame E0 p id Notebook.Local lang) as (HP & _ & _ & HO & _).
  rewrite tooltip_reads. cbv zeta.
  unfold Notebook.onlinePathExists, Notebook.path. rewrite HO, HP.
  apply append_assoc.
Qed.

(** X5.  [getIconPath] gives null on a node that is not initialised.
    Otherwise the icon is [notebook<state>.png] under
    [<rootPath>/resources/<theme>/workspace], and the state is decided by
    one read of [localPathExists] on a node that is not online
    ([_OFFLINE] when it answers true, none otherwise) and by the second of
    two reads on a node that is online ([_ONLINE] when it answers false,
    none otherwise). *)
Theorem getIconPath_state :
  forall (E : Host) (theme : string) (n : Notebook.DatabricksWorkspaceNotebook),
    fst (Notebook.getIconPath E theme n) =
    if Notebook._isInitialized n then
      Some (fspath.join
              [rootPath E; "resources"; theme; "workspace";
               "notebook" ++
               (if Notebook.onlinePathExists n
                then (if fst (Notebook.localPathExists E
                                (snd (Notebook.localPathExists E n)))
                      then "" else "_ONLINE")
                else (if fst (Notebook.localPathExists E n)
                      then "_OFFLINE" else "")) ++ ".png"])
    else None.
Proof.
  intros E theme n. apply getIconPath_reads.
Qed.

(* ================================================================= *)
(** ** More on the actions *)

Ltac in_cases H :=
  simpl in H;
  repeat (destruct H as [H | H]; [try discriminate H |]);
  try contradiction.

Section MoreActionFacts.
Import Act Notebook.

Variable E : Host.

(** X6.  What [download] shows and schedules.  The "finished" message is
    shown exactly when a path is returned.  The refresh command is issued
    exactly when a path is returned, the download was not to a temporary
    file and [RefreshAfterUpDownload] is set; it is the only command ever
    issued, and it comes with the wait of 500 ms.  At most one remote
    fetch is made. *)
Theorem download_refresh :
  forall (n : DatabricksWorkspaceNotebook) (asTempFile : bool) (tr : list Event),
  exists (r : option string) (evs : list Event),
    download E n asTempFile tr = (Normal r, (tr ++ evs)%list) /\
    (In (ShowInformationMessage ("Download of item " ++ _path n ++ ") finished!")) evs
     <-> r <> None) /\
    (In (ExecuteCommand "databricksWorkspace.refresh" false) evs
     <-> r <> None /\ asTempFile = false /\ RefreshAfterUpDownload E = true) /\
    (forall cmd arg,
        In (ExecuteCommand cmd arg) evs ->
        cmd = "databricksWorkspace.refresh" /\ arg = false /\ In (Wait 500) evs) /\
    List.length (filter isFetch evs) <= 1.
Proof.
  intros n asTempFile tr.
  unfold download, tryCatch, bind, call, await, exportFormat, emit, ret, throw, refresh.
  destruct asTempFile;
    [destruct (openTempFile E "" (label n ++ "-ONLINE") false) as [e | [tmp | e]] |];
    try (destruct (_languageFileExtension n) as [m|]);
    try (match goal with
         | |- context [downloadWorkspaceItem E ?a ?b ?c] =>
             destruct (downloadWorkspaceItem E a b c) as [e' | [[] | e']]
         end);
    rewrite ?andb_false_r, ?andb_true_r;
    try (destruct (RefreshAfterUpDownload E) eqn:HR);
    eexists; eexists;
    (split; [trace_eq || reflexivity |]).
  all: split;
    [ split;
      [ intros H; in_cases H; discriminate
      | intros H; simpl; try (exfalso; apply H; reflexivity); tauto ] |].
  all: split;
    [ split;
      [ intros H; in_cases H;
        repeat split; try discriminate; try reflexivity; try assumption
      | intros (H1 & H2 & H3); simpl;
        try (exfalso; apply H1; reflexivity); try discriminate; tauto ] |].
  all: split;
    [ intros cmd arg H; in_cases H; inversion H; subst;
      repeat split; simpl; tauto |].
  all: simpl; lia.
Qed.

(** X7.  What [upload] shows and schedules.  It never throws.  Either the
    "finished" message or one error message is shown, never both; the
    "finished" message is shown exactly when the mapping is defined and
    the call of [uploadWorkspaceItem] handed back a promise, whatever
    becomes of that promise.  The refresh command is issued exactly when
    the "finished" message is shown and [RefreshAfterUpDownload] is set. *)
Theorem upload_outcomes :
  forall (n : DatabricksWorkspaceNotebook) (tr : list Event),
  exists evs : list Event,
    upload E n tr = (Normal tt, (tr ++ evs)%list) /\
    (In (ShowInformationMessage ("Upload of item " ++ path n ++ ") finished!")) evs
     <-> exists m s,
           _languageFileExtension n = Some m /\
           uploadWorkspaceItem E (localFilePath E n) (path n) (_language n) true
             (LanguageFileExtensionMapper.exportFormat m) = Promise s) /\
    ((exists msg, In (ShowErrorMessage msg) evs)
     <-> ~ In (ShowInformationMessage ("Upload of item " ++ path n ++ ") finished!")) evs) /\
    (In (ExecuteCommand "databricksWorkspace.refresh" false) evs
     <-> In (ShowInformationMessage ("Upload of item " ++ path n ++ ") finished!")) evs /\
         RefreshAfterUpDownload E = true).
Proof.
  intros n tr.
  unfold upload, tryCatch, bind, call, exportFormat, emit, ret, throw, refresh.
  destruct (_languageFileExtension n) as [m|];
    [destruct (uploadWorkspaceItem E (localFilePath E n) (path n) (_language n) true
                 (LanguageFileExtensionMapper.exportFormat m)) as [e|s] eqn:HU;
     [|destruct (RefreshAfterUpDownload E) eqn:HR] |];
    eexists; (split; [trace_eq || reflexivity |]).
  all: split;
    [ split;
      [ intros H; in_cases H
      | intros (m' & s' & Hm & Hs); try discriminate;
        try (injection Hm as <-; rewrite HU in Hs; discriminate) ] |].
  all: try (exists m, s; split; [reflexivity | exact HU]).
  all: try (simpl; tauto).
  all: split;
    [ split;
      [ intros (msg & H) Hi; in_cases H; in_cases Hi
      | intros Hn; try (exfalso; apply Hn; simpl; tauto);
        eexists; simpl; eauto ] |].
  all: split;
    [ intros H; in_cases H; try (split; [simpl; tauto | reflexivity])
    | intros (Hi & Ht); try discriminate; in_cases Hi; simpl; tauto ].
Qed.

(** X8.  [compare] on a node bound to a source format, once the temporary
    file is open.  When the fetch fulfils, the diff is shown between the
    temporary file's path with the local extension appended and
    [localFilePath]; nothing is refreshed, whatever
    [RefreshAfterUpDownload] says.  When the fetch fails, the error is
    shown and the diff is shown all the same, with an undefined online
    file. *)
Theorem compare_traces :
  forall (n : DatabricksWorkspaceNotebook) (m : LanguageFileExtensionMapper.t)
         (tmp : string) (tr : list Event),
    _languageFileExtension n = Some m ->
    LanguageFileExtensionMapper.isNotebook m = false ->
    openTempFile E "" (label n ++ "-ONLINE") false = Promise (Fulfilled tmp) ->
    let target := tmp ++ localFileExtension E n in
    let format := LanguageFileExtensionMapper.exportFormat m in
    (downloadWorkspaceItem E (path n) target format = Promise (Fulfilled tt) ->
     compare E n tr =
     (Normal tt,
      (tr ++ [OpenTempFile "" (label n ++ "-ONLINE") false;
              DownloadWorkspaceItem (path n) target format;
              ShowInformationMessage ("Download of item " ++ _path n ++ ") finished!");
              ShowDiff (Some target) (localFilePath E n)])%list))
    /\
    (forall e,
        downloadWorkspaceItem E (path n) target format = Promise (Rejected e) \/
        downloadWorkspaceItem E (path n) target format = Threw e ->
        compare E n tr =
        (Normal tt,
         (tr ++ [OpenTempFile "" (label n ++ "-ONLINE") false;
                 DownloadWorkspaceItem (path n) target format;
                 ShowErrorMessage ("ERROR: " ++ e);
                 ShowDiff None (localFilePath E n)])%list)).
Proof.
  intros n m tmp tr HM HN HT. cbv zeta.
  unfold compare. rewrite HM, HN.
  unfold download, tryCatch, bind, call, await, exportFormat, emit, ret, throw, refresh.
  rewrite HT, HM. split.
  - intros HD. rewrite HD, andb_false_r. trace_eq.
  - intros e [HD | HD]; rewrite HD; trace_eq.
Qed.

(** X9.  When the temporary file cannot be opened, [download(true)] makes
    no remote call: it shows the error and returns undefined. *)
Theorem download_without_temp_file :
  forall (n : DatabricksWorkspaceNotebook) (e : Error) (tr : list Event),
    openTempFile E "" (label n ++ "-ONLINE") false = Promise (Rejected e) \/
    openTempFile E "" (label n ++ "-ONLINE") false = Threw e ->
    download E n true tr =
    (Normal None,
     (tr ++ [OpenTempFile "" (label n ++ "-ONLINE") false;
             ShowErrorMessage ("ERROR: " ++ e)])%list).
Proof.
  intros n e tr [HT | HT];
    unfold download, tryCatch, bind, call, await, exportFormat, emit, ret, throw, refresh;
    rewrite HT; trace_eq.
Qed.

(** X10.  [open(showWarning)] never throws and always ends by opening the
    document at [localFileUri].  When the read of [localPathExists]
    answers true, nothing is fetched: the warning about the cached file is
    shown when asked for, and the document opened is that of the node as
    the read left it.  When it answers false, the node is unchanged and
    [download()] is run first, which returns [localFilePath] when it
    returns a path; the document is opened whether or not it did. *)
Theorem open_opens_local_file :
  forall (showWarning : bool) (n : DatabricksWorkspaceNotebook) (tr : list ShellEvent),
    (fst (localPathExists E n) = true ->
     open E showWarning n tr =
     (Normal tt, snd (localPathExists E n),
      (tr ++ (if showWarning then [Did (ShowWarningMessage (cachedFileWarning))] else [])
          ++ [OpenTextDocument (localFileUri E (snd (localPathExists E n)))])%list))
    /\
    (fst (localPathExists E n) = false ->
     exists (r : option string) (evs : list Event),
       download E n false [] = (Normal r, evs) /\
       (forall p, r = Some p -> p = localFilePath E n) /\
       open E showWarning n tr =
       (Normal tt, n,
        (tr ++ map Did evs ++ [OpenTextDocument (localFileUri E n)])%list)).
Proof.
  intros showWarning n tr. split; intros HL.
  - unfold open. destruct (localPathExists E n) as [l n1]. cbn [fst snd] in *.
    subst l. cbn [negb]. destruct showWarning; cbn.
    + rewrite <- app_assoc. reflexivity.
    + reflexivity.
  - pose proof (localPathExists_false_same E n HL) as HS.
    destruct (download_cases E n false []) as (r & evs & Hrun & _ & _ & Hres).
    cbn [app] in Hrun. exists r, evs. split; [exact Hrun|].
    split; [intros p ->; apply Hres|].
    unfold open. destruct (localPathExists E n) as [l n1]. cbn [fst snd] in *.
    subst l n1. cbn [negb]. rewrite Hrun. rewrite <- app_assoc. reflexivity.
Qed.

End MoreActionFacts.

(* ================================================================= *)
(** ** Labels and file names *)

Section LabelFacts.
Import Str fspath.

Lemma noSlash_append (a b : string) :
  noSlash (a ++ b) = noSlash a && noSlash b.
Proof.
  induction a as [|c a IH]; simpl; [reflexivity|].
  rewrite IH. apply andb_assoc.
Qed.

Lemma noSlash_rev (s : string) : noSlash (Str.rev s) = noSlash s.
Proof.
  induction s as [|c s IH]; simpl; [reflexivity|].
  rewrite noSlash_append, IH. simpl. rewrite andb_true_r. apply andb_comm.
Qed.

Lemma noSlash_takeWhile (s : string) :
  noSlash (takeWhile (fun c => negb (is_slash c)) s) = true.
Proof.
  induction s as [|c s IH]; simpl; [reflexivity|].
  destruct (is_slash c) eqn:Hc; simpl; [reflexivity|].
  rewrite Hc. simpl. exact IH.
Qed.

Lemma basename_noSlash (p : string) : noSlash (basename p) = true.
Proof.
  unfold basename. rewrite noSlash_rev. apply noSlash_takeWhile.
Qed.

Lemma trailingSeparator_inv (p : string) :
  trailingSeparator p = true -> exists a, p = a ++ String slash "".
Proof.
  unfold trailingSeparator.
  induction p as [|c p IH]; simpl; [discriminate|].
  destruct p as [|d p'].
  - intros Hc. apply is_slash_true in Hc. subst c. exists "". reflexivity.
  - intros H. destruct (IH H) as (a & Ha). exists (String c a).
    simpl. rewrite <- Ha. reflexivity.
Qed.

Lemma last_split_snoc (a b : string) :
  noSlash b = true ->
  List.last (split slash (a ++ String slash b)) "" = b.
Proof.
  intros Hb. rewrite split_append_slash, (split_noSlash b Hb).
  apply last_last.
Qed.

(** The last segment of a path, as [split('/').pop()] gives it, against
    [path.basename]. *)
Lemma last_split_basename (p : string) :
  List.last (split slash p) "" = if trailingSeparator p then "" else basename p.
Proof.
  destruct (trailingSeparator p) eqn:HT.
  - destruct (trailingSeparator_inv p HT) as (a & ->).
    apply last_split_snoc. reflexivity.
  - destruct p as [|c p']; [reflexivity|].
    assert (Hne : String c p' <> "") by discriminate.
    destruct (dirname_basename_cases (String c p') Hne HT)
      as (_ & [(Hp & _) | [(Hp & _) | (d & _ & Hp & _)]]).
    + rewrite Hp at 1. rewrite (split_noSlash _ (basename_noSlash _)). reflexivity.
    + rewrite Hp at 1. apply (last_split_snoc "" _ (basename_noSlash _)).
    + rewrite Hp at 1. apply (last_split_snoc d _ (basename_noSlash _)).
Qed.

End LabelFacts.

(** X11.  The label of a notebook node, [path.split('/').pop()], never
    holds a slash.  It is [path.basename] of the path when the path does
    not end with a slash, and empty when it does (where [basename] still
    gives the last folder name). *)
Theorem notebook_label :
  forall n : Notebook.DatabricksWorkspaceNotebook,
    Str.noSlash (Notebook.label n) = true /\
    Notebook.label n =
      if fspath.trailingSeparator (Notebook.path n) then ""
      else fspath.basename (Notebook.path n).
Proof.
  intros n. unfold Notebook.label, Notebook.path.
  rewrite last_split_basename. split; [|reflexivity].
  destruct (fspath.trailingSeparator _); [reflexivity | apply basename_noSlash].
Qed.

(** X12.  The label of a generic tree item is the text after the last
    slash of its path: the whole path when it holds no slash, and for a
    path [dir/name], with [name] free of slashes, [name]. *)
Theorem treeItem_label :
  forall t : TreeItem.DatabricksWorkspaceTreeItem,
    (Str.noSlash (TreeItem.path t) = true -> TreeItem.label t = TreeItem.path t) /\
    (forall dir name,
        TreeItem.path t = dir ++ "/" ++ name ->
        Str.noSlash name = true ->
        TreeItem.label t = name) /\
    Str.noSlash (TreeItem.label t) = true.
Proof.
  intros t. unfold TreeItem.label. split; [|split].
  - intros H. rewrite (split_noSlash _ H). reflexivity.
  - intros dir name Hp Hn. rewrite Hp. apply last_split_snoc. exact Hn.
  - rewrite last_split_basename.
    destruct (fspath.trailingSeparator _); [reflexivity | apply basename_noSlash].
Qed.

(* ================================================================= *)
(** ** The local file inside its folder *)

Section FolderFacts.
Import Str fspath.

Lemma plainSeg_inv (seg : string) :
  plainSeg seg = true ->
  noSlash seg = true /\ trivialSeg seg = false /\ (seg =? "..") = false /\ seg <> "".
Proof.
  unfold plainSeg. intros H.
  apply andb_prop in H. destruct H as (H & H3).
  apply andb_prop in H. destruct H as (H1 & H2).
  apply negb_true_iff in H2, H3.
  repeat split; try assumption.
  intros ->. discriminate.
Qed.

Lemma normalizeStep_plain (allow : bool) (res : list string) (seg : string) :
  plainSeg seg = true -> normalizeStep allow res seg = seg :: res.
Proof.
  intros H. destruct (plainSeg_inv seg H) as (_ & H2 & H3 & _).
  unfold normalizeStep. rewrite H2, H3. reflexivity.
Qed.

(** [join] of a directory and a plain file name. *)
Lemma join_plain_last (dir seg : string) :
  dir <> "" -> plainSeg seg = true ->
  join [dir; seg] = dirPrefix dir ++ seg.
Proof.
  intros Hdir Hseg.
  destruct (plainSeg_inv seg Hseg) as (Hns & Htriv & Hdd & Hne).
  assert (Hf : filter nonEmpty [dir; seg] = [dir; seg]).
  { destruct dir; [contradiction|]. destruct seg; [contradiction|]. reflexivity. }
  unfold join. rewrite Hf. rewrite intercalate_cons. simpl intercalate.
  assert (Hx : dir ++ String slash seg <> "").
  { destruct dir; [contradiction | discriminate]. }
  rewrite (normalize_render _ Hx).
  rewrite (isAbsolute_append dir (String slash seg) Hdir).
  rewrite (trailingSeparator_append dir (String slash seg)) by discriminate.
  assert (Htrail : trailingSeparator (String slash seg) = false).
  { unfold trailingSeparator. rewrite (lastChar_cons slash seg Hne).
    apply (trailingSeparator_noSlash seg Hns). }
  rewrite Htrail.
  rewrite normalizeString_append_slash, (split_noSlash seg Hns).
  simpl fold_left. rewrite (normalizeStep_plain _ _ _ Hseg).
  pose proof (normalizeString_wellFormed dir (negb (isAbsolute dir))) as Hwf.
  assert (Hwf' : wellFormedStack (negb (isAbsolute dir))
                   (seg :: normalizeString dir (negb (isAbsolute dir)))).
  { rewrite <- (normalizeStep_plain (negb (isAbsolute dir)) _ _ Hseg).
    apply normalizeStep_wellFormed; assumption. }
  rewrite (render_cons _ _ _ _ _ Hwf').
  unfold dirPrefix. cbv zeta.
  destruct (normalizeString dir (negb (isAbsolute dir))) as [|top below] eqn:HS.
  - simpl. rewrite !append_nil_r. reflexivity.
  - change (List.rev (seg :: top :: below))
      with (List.rev (top :: below) ++ [seg])%list.
    rewrite intercalate_app.
    + simpl intercalate at 2. rewrite append_nil_r, !append_assoc. reflexivity.
    + intros H. apply (f_equal (@List.length string)) in H.
      rewrite length_rev in H. discriminate.
    + discriminate.
Qed.

Lemma dirPrefix_end (dir : string) :
  dirPrefix dir = "" \/ exists a, dirPrefix dir = a ++ String slash "".
Proof.
  unfold dirPrefix. cbv zeta.
  destruct (normalizeString dir (negb (isAbsolute dir))) as [|top below].
  - destruct (isAbsolute dir); [right; exists ""; reflexivity | left; reflexivity].
  - right. eexists. rewrite <- append_assoc. reflexivity.
Qed.

(** The base name of a plain name put after a directory prefix. *)
Lemma basename_after_prefix (pre seg : string) :
  pre = "" \/ (exists a, pre = a ++ String slash "") ->
  noSlash seg = true -> seg <> "" ->
  basename (pre ++ seg) = seg.
Proof.
  intros Hpre Hns Hne. unfold basename.
  rewrite rev_append.
  assert (Hr : noSlash (Str.rev seg) = true) by (rewrite noSlash_rev; exact Hns).
  assert (Hrne : Str.rev seg <> "") by (apply rev_not_empty; exact Hne).
  assert (Hall : forall s, noSlash s = true ->
                           dropWhile (fun c => negb (is_slash c)) s = "").
  { induction s as [|c s IH]; simpl; [reflexivity|].
    intros H. apply andb_prop in H. destruct H as (Hc & Hs).
    rewrite Hc. apply IH. exact Hs. }
  assert (Hdrop : forall t, dropWhile is_slash (Str.rev seg ++ t) = Str.rev seg ++ t).
  { intros t. destruct (Str.rev seg) as [|c r]; [contradiction|].
    simpl in Hr |- *. apply andb_prop in Hr. destruct Hr as (Hc & _).
    apply negb_true_iff in Hc. rewrite Hc. reflexivity. }
  rewrite Hdrop.
  rewrite (takeWhile_append_all _ _ _ (Hall _ Hr)).
  assert (Hstop : takeWhile (fun c => negb (is_slash c)) (Str.rev pre) = "").
  { destruct Hpre as [-> | (a & ->)]; [reflexivity|].
    rewrite rev_append. reflexivity. }
  rewrite Hstop, append_nil_r. apply rev_involutive.
Qed.

Lemma localFolderPath_not_empty (E : Host) (n : Notebook.DatabricksWorkspaceNotebook) :
  Notebook.localFolderPath E n <> "".
Proof.
  unfold Notebook.localFolderPath.
  pose proof (dirname_not_empty (Notebook.path n)) as Hd.
  rewrite join_parts.
  - apply normalize_not_empty.
  - simpl. destruct (Str.nonEmpty (localSyncFolder E));
      destruct (Str.nonEmpty (WorkspaceSubFolder E));
      destruct (Str.nonEmpty (fspath.dirname (Notebook.path n))) eqn:H3;
      try discriminate.
    all: unfold Str.nonEmpty in H3; rewrite (isEmpty_false _ Hd) in H3; discriminate.
Qed.

Lemma localFilePath_shape (E : Host) (n : Notebook.DatabricksWorkspaceNotebook) :
  plainSeg (basename (Notebook.path n) ++ Notebook.localFileExtension E n) = true ->
  Notebook.localFilePath E n =
    (dirPrefix (Notebook.localFolderPath E n) ++ basename (Notebook.path n)) ++
    Notebook.localFileExtension E n.
Proof.
  intros Hseg. unfold Notebook.localFilePath. rewrite append_assoc.
  apply join_plain_last; [apply localFolderPath_not_empty | exact Hseg].
Qed.

(** Replacing a text by itself changes nothing. *)
Lemma prefix_skip (p t : string) :
  prefix p t = true -> t = p ++ skip (String.length p) t.
Proof.
  revert t. induction p as [|c p IH]; intros t H; simpl.
  - reflexivity.
  - destruct t as [|d t]; simpl in H; [discriminate|].
    destruct (ascii_dec c d) as [<-|]; [|discriminate].
    simpl. rewrite <- (IH t H). reflexivity.
Qed.

Lemma take_skip (i : nat) (s : string) : take i s ++ skip i s = s.
Proof.
  revert s. induction i as [|i IH]; intros s; simpl; [reflexivity|].
  destruct s as [|c s]; simpl; [reflexivity | rewrite IH; reflexivity].
Qed.

Lemma replace_self (s pat : string) :
  noDollar pat = true -> Str.replace s pat pat = s.
Proof.
  intros Hplain. unfold Str.replace.
  destruct (indexOf pat s) as [i|] eqn:Hi; [|reflexivity].
  destruct (indexOf_Some pat s i Hi) as (_ & Hocc & _).
  rewrite (getSubstitution_plain _ _ _ _ Hplain).
  rewrite skip_add, <- (prefix_skip _ _ Hocc). apply take_skip.
Qed.

End FolderFacts.

(** X13.  When the notebook's base name followed by the active extension
    is a plain file name (no slash, not empty, not [.] or [..]), the local
    file sits directly in the local folder: [localFilePath] is the folder's
    normalised text, closed by a slash, followed by that file name, and the
    base name of [localFilePath] is that file name. *)
Theorem localFilePath_in_folder :
  forall (E : Host) (n : Notebook.DatabricksWorkspaceNotebook),
    fspath.plainSeg
      (fspath.basename (Notebook.path n) ++ Notebook.localFileExtension E n) = true ->
    Notebook.localFilePath E n =
      fspath.dirPrefix (Notebook.localFolderPath E n) ++
      fspath.basename (Notebook.path n) ++ Notebook.localFileExtension E n
    /\
    fspath.basename (Notebook.localFilePath E n) =
      fspath.basename (Notebook.path n) ++ Notebook.localFileExtension E n.
Proof.
  intros E n Hseg.
  pose proof (localFilePath_shape E n Hseg) as Hshape.
  rewrite append_assoc in Hshape.
  split; [exact Hshape|].
  rewrite Hshape.
  destruct (plainSeg_inv _ Hseg) as (Hns & _ & _ & Hne).
  apply basename_after_prefix; [apply dirPrefix_end | exact Hns | exact Hne].
Qed.

(* ================================================================= *)
(** ** The file that the probe found *)

Section ProbedFile.
Import Notebook.

Variable E : Host.

Lemma probe_true_inv (exts : list string) (n : DatabricksWorkspaceNotebook) :
  fst (probe E exts n) = true ->
  exists ext,
    In ext exts /\
    existsSync E (pathToCheck E n ext) = true /\
    snd (probe E exts n) = set_languageFileExtension (fromExtension E ext) n.
Proof.
  induction exts as [|ext exts IH]; simpl; [discriminate|].
  destruct (existsSync E (pathToCheck E n ext)) eqn:Hx; simpl.
  - intros _. exists ext. repeat split; [left; reflexivity | exact Hx].
  - intros H. destruct (IH H) as (x & Hin & Hex & Hs).
    exists x. repeat split; [right; exact Hin | exact Hex | exact Hs].
Qed.

(** X14.  With [allowAllSupportedFileExtensions] on, recognised extensions
    that are plain (no dollar sign, and a plain file name when put after
    the notebook's base name) and that [fromExtension] maps to a mapper of
    that very extension, and a node whose active extension occurs in
    [localFilePath] at its end only: when a read of [localPathExists]
    answers true, the node is left bound to a recognised extension, the
    file at its [localFilePath] exists, and the next read answers true as
    well. *)
Theorem localPathExists_probed_file :
  forall n : DatabricksWorkspaceNotebook,
    allowAllSupportedFileExtensions E = true ->
    (forall ext,
        In ext (allLanguageFileExtensions E (_language n)) ->
        Str.noDollar ext = true /\
        LanguageFileExtensionMapper.extension (fromExtension E ext) = ext /\
        fspath.plainSeg (fspath.basename (path n) ++ ext) = true) ->
    fspath.plainSeg (fspath.basename (path n) ++ localFileExtension E n) = true ->
    (forall j,
        j + String.length (localFileExtension E n) < String.length (localFilePath E n) ->
        prefix (localFileExtension E n) (Str.skip j (localFilePath E n)) = false) ->
    fst (localPathExists E n) = true ->
    In (localFileExtension E (snd (localPathExists E n)))
       (allLanguageFileExtensions E (_language n)) /\
    existsSync E (localFilePath E (snd (localPathExists E n))) = true /\
    fst (localPathExists E (snd (localPathExists E n))) = true.
Proof.
  intros n Hon Hexts Hseg Hfirst Hread.
  unfold localPathExists in Hread |- *. rewrite Hon in Hread |- *.
  destruct (probe_true_inv _ n Hread) as (x & Hin & Hex & Hs).
  rewrite Hs. clear Hs Hread.
  destruct (Hexts x Hin) as (Hplain & Hmap & Hsegx).
  set (n1 := set_languageFileExtension (fromExtension E x) n).
  assert (Hext1 : localFileExtension E n1 = x) by exact Hmap.
  assert (Hpath1 : localFilePath E n1 = pathToCheck E n x).
  { rewrite (localFilePath_shape E n1) by (rewrite Hext1; exact Hsegx).
    rewrite Hext1. unfold pathToCheck.
    change (localFolderPath E n1) with (localFolderPath E n).
    change (path n1) with (path n).
    pose proof (localFilePath_shape E n Hseg) as Hshape.
    rewrite Hshape in Hfirst |- *.
    symmetry. apply replace_trailing; [exact Hplain|].
    intros j Hj. apply Hfirst. rewrite length_append. lia. }
  split; [rewrite Hext1; exact Hin|].
  split; [rewrite Hpath1; exact Hex|].
  rewrite probe_result.
  apply existsb_exists. exists x. split; [exact Hin|].
  unfold pathToCheck. rewrite Hext1, (replace_self _ _ Hplain), Hpath1. exact Hex.
Qed.

End ProbedFile.

(* ================================================================= *)
(** ** The URI of the local file *)

Section UriFacts.
Import Str fspath.

Lemma noDoubleSlash_noSlash_append (a b : string) :
  noSlash a = true -> noDoubleSlash (a ++ b) = noDoubleSlash b.
Proof.
  induction a as [|c a IH]; intros H; [reflexivity|].
  simpl in H. apply andb_prop in H. destruct H as (Hc & Ha).
  apply negb_true_iff in Hc.
  change (String c a ++ b) with (String c (a ++ b)).
  cbn [noDoubleSlash]. rewrite Hc, (IH Ha).
  destruct (a ++ b); reflexivity.
Qed.

Lemma noDoubleSlash_slash (t : string) :
  noDoubleSlash (String slash t) = negb (isAbsolute t) && noDoubleSlash t.
Proof.
  cbn [noDoubleSlash]. destruct t as [|b t]; reflexivity.
Qed.

Lemma noDoubleSlash_snoc_slash (t : string) :
  noDoubleSlash t = true -> trailingSeparator t = false ->
  noDoubleSlash (t ++ String slash "") = true.
Proof.
  induction t as [|c t IH]; intros Hd Ht; [reflexivity|].
  destruct t as [|b t].
  - unfold trailingSeparator in Ht. simpl in Ht. simpl. rewrite Ht. reflexivity.
  - cbn [noDoubleSlash] in Hd. apply andb_prop in Hd. destruct Hd as (Hcb & Hd).
    change (String c (String b t) ++ String slash "")
      with (String c (String b (t ++ String slash ""))).
    cbn [noDoubleSlash]. rewrite Hcb.
    change (String b (t ++ String slash "")) with (String b t ++ String slash "") in IH.
    cbn [noDoubleSlash] in IH. apply IH; [exact Hd|].
    unfold trailingSeparator in Ht |- *.
    rewrite lastChar_cons in Ht by discriminate. exact Ht.
Qed.

Lemma noDoubleSlash_intercalate (l : list string) :
  Forall (fun seg => noSlash seg = true) l ->
  Forall (fun seg => seg <> "") l ->
  noDoubleSlash (intercalate "/" l) = true.
Proof.
  induction l as [|x l IH]; intros Hns Hne; [reflexivity|].
  inversion Hns as [|? ? Hx Hns']; subst. inversion Hne as [|? ? Hx' Hne']; subst.
  destruct l as [|y l].
  - simpl. rewrite <- (append_nil_r x).
    rewrite (noDoubleSlash_noSlash_append x "" Hx). reflexivity.
  - rewrite intercalate_cons.
    rewrite (noDoubleSlash_noSlash_append x _ Hx), noDoubleSlash_slash.
    inversion Hns' as [|? ? Hy _]; subst. inversion Hne' as [|? ? Hy' _]; subst.
    rewrite (isAbsolute_intercalate y l Hy' Hy), (IH Hns' Hne'). reflexivity.
Qed.

Lemma noDoubleSlash_render (allow abs trail : bool) (res : list string) :
  wellFormedStack allow res -> noDoubleSlash (render abs trail res) = true.
Proof.
  intros Hwf. destruct res as [|seg below].
  - rewrite render_nil. destruct abs, trail; reflexivity.
  - rewrite (render_cons allow abs trail seg below Hwf).
    pose proof (wellFormed_noSlash _ _ Hwf) as Hns.
    pose proof (wellFormed_not_empty _ _ Hwf) as Hne.
    apply Forall_rev in Hns. apply Forall_rev in Hne.
    pose proof (noDoubleSlash_intercalate _ Hns Hne) as Hd.
    assert (Htr : trailingSeparator (intercalate "/" (List.rev (seg :: below))) = false).
    { inversion Hwf as (H1 & H2 & _).
      apply (trailingSeparator_intercalate (List.rev below) seg).
      - intros ->. discriminate.
      - exact H1. }
    assert (Hab : isAbsolute (intercalate "/" (List.rev (seg :: below))) = false).
    { destruct (List.rev (seg :: below)) as [|x l]; [reflexivity|].
      inversion Hns; subst. inversion Hne; subst.
      apply isAbsolute_intercalate; assumption. }
    assert (Hnz : intercalate "/" (List.rev (seg :: below)) <> "").
    { apply intercalate_not_empty; [|exact Hne].
      intros H. apply (f_equal (@List.length string)) in H.
      rewrite length_rev in H. discriminate. }
    set (text := intercalate "/" (List.rev (seg :: below))) in *.
    assert (Hbody : noDoubleSlash (text ++ (if trail then "/" else "")) = true /\
                    isAbsolute (text ++ (if trail then "/" else "")) = false).
    { destruct trail.
      - split; [apply noDoubleSlash_snoc_slash; assumption|].
        rewrite isAbsolute_append; assumption.
      - rewrite append_nil_r. split; assumption. }
    destruct Hbody as (Hb1 & Hb2).
    destruct abs.
    + change ("/" ++ text ++ (if trail then "/" else ""))
        with (String slash (text ++ (if trail then "/" else ""))).
      rewrite noDoubleSlash_slash, Hb1, Hb2. reflexivity.
    + exact Hb1.
Qed.

Lemma noDoubleSlash_normalize (p : string) : noDoubleSlash (normalize p) = true.
Proof.
  destruct p as [|c p]; [reflexivity|].
  rewrite normalize_render by discriminate.
  apply (noDoubleSlash_render _ _ _ _ (normalizeString_wellFormed _ _)).
Qed.

Lemma noDoubleSlash_join (args : list string) : noDoubleSlash (join args) = true.
Proof.
  unfold join. destruct (filter nonEmpty args); [reflexivity|].
  apply noDoubleSlash_normalize.
Qed.

Lemma join_not_empty (args : list string) : join args <> "".
Proof.
  unfold join. destruct (filter nonEmpty args); [discriminate|].
  apply normalize_not_empty.
Qed.

Lemma noDoubleSlash_skip (j : nat) (s : string) :
  noDoubleSlash s = true -> noDoubleSlash (skip j s) = true.
Proof.
  revert s. induction j as [|j IH]; intros s H; [exact H|].
  destruct s as [|c s]; [reflexivity|].
  cbn [skip]. apply IH. cbn [noDoubleSlash] in H.
  apply andb_prop in H. apply H.
Qed.

Lemma noDoubleSlash_no_run (s : string) :
  noDoubleSlash s = true -> prefix "////" s = false.
Proof.
  intros H. destruct s as [|a [|b r]]; [reflexivity | |].
  - cbn [prefix]. destruct (ascii_dec "/" a); reflexivity.
  - cbn [noDoubleSlash] in H. apply andb_prop in H. destruct H as (H & _).
    cbn [prefix]. destruct (ascii_dec "/" a) as [<-|]; [|reflexivity].
    destruct (ascii_dec "/" b) as [<-|]; [|reflexivity].
    discriminate.
Qed.

(** The replacement in [localFileUri], on an absolute and on a relative
    normalised path. *)
Lemma uri_replace (s : string) :
  s <> "" -> noDoubleSlash s = true ->
  Str.replace ("file:///" ++ s) "////" "///" =
  if isAbsolute s then "file://" ++ s else "file:///" ++ s.
Proof.
  intros Hne Hd. destruct s as [|c r]; [contradiction|].
  unfold isAbsolute. cbn [firstChar].
  destruct (is_slash c) eqn:Hc.
  - apply is_slash_true in Hc. subst c. destruct r; reflexivity.
  - apply replace_absent. intros j _.
    assert (Hc' : "/"%char <> c).
    { intros <-. discriminate. }
    do 8 (destruct j as [|j];
          [cbn [skip append prefix];
           repeat match goal with
                  | |- context [ascii_dec ?a ?b] =>
                      destruct (ascii_dec a b) as [e|ne];
                      [try discriminate e; try (exfalso; exact (Hc' e)); try clear e
                      | try reflexivity]
                  end;
           try reflexivity|]).
    change (skip (S (S (S (S (S (S (S (S j)))))))) ("file:///" ++ String c r))
      with (skip j (String c r)).
    apply noDoubleSlash_no_run, noDoubleSlash_skip. exact Hd.
Qed.

End UriFacts.

(** X15.  [localFilePath] and [localFolderPath] never hold two slashes in a
    row, and the text handed to [Uri.parse] by [localFileUri] is
    [file://] followed by [localFilePath] when that path is absolute, and
    [file:///] followed by it when it is relative: the replacement of
    [////] touches nothing but the fourth slash of an absolute path. *)
Theorem localFileUri_text :
  forall (E : Host) (n : Notebook.DatabricksWorkspaceNotebook),
    fspath.noDoubleSlash (Notebook.localFolderPath E n) = true /\
    fspath.noDoubleSlash (Notebook.localFilePath E n) = true /\
    Notebook.localFileUri E n =
      if fspath.isAbsolute (Notebook.localFilePath E n)
      then "file://" ++ Notebook.localFilePath E n
      else "file:///" ++ Notebook.localFilePath E n.
Proof.
  intros E n.
  split; [apply noDoubleSlash_join|]. split; [apply noDoubleSlash_join|].
  unfold Notebook.localFileUri.
  apply uri_replace; [apply join_not_empty | apply noDoubleSlash_join].
Qed.

(* ================================================================= *)
(** ** Presentation with the policy off *)

Section CanonicalPresentation.
Import Notebook.

Variable E : Host.

(** X16.  With [allowAllSupportedFileExtensions] off, [contextValue],
    [tooltip] and [getIconPath] leave the node as it is and agree on the
    sync state, which is the pair of [existsSync(localFilePath)] and
    [onlinePathExists]: 'CAN_SYNC', [[Synced]] and the plain icon when the
    notebook is on both sides; 'CAN_DOWNLOAD', [[Online only]] and the
    [_ONLINE] icon when it is online only; 'CAN_UPLOAD', [[Offline only]]
    and the [_OFFLINE] icon when it is local only; undefined, no marker and
    the plain icon when it is on neither side. *)
Theorem presentation_canonical_only :
  forall (n : DatabricksWorkspaceNotebook) (theme : string),
    allowAllSupportedFileExtensions E = false ->
    _isInitialized n = true ->
    let icon := fun state =>
      Some (fspath.join [rootPath E; "resources"; theme; "workspace";
                         "notebook" ++ state ++ ".png"]) in
    (contextValue E n, tooltip E n, getIconPath E theme n) =
    match existsSync E (localFilePath E n), onlinePathExists n with
    | true, true =>
        ((Some "CAN_SYNC", n),
         (path n ++ Str.newline ++ "[Synced]" ++ Str.newline, n),
         (icon "", n))
    | false, true =>
        ((Some "CAN_DOWNLOAD", n),
         (path n ++ Str.newline ++ "[Online only]" ++ Str.newline, n),
         (icon "_ONLINE", n))
    | true, false =>
        ((Some "CAN_UPLOAD", n),
         (path n ++ Str.newline ++ "[Offline only]" ++ Str.newline, n),
         (icon "_OFFLINE", n))
    | false, false =>
        ((None, n), (path n ++ Str.newline, n), (icon "", n))
    end.
Proof.
  intros n theme Hoff Hinit. cbv zeta.
  assert (Hread : forall m, localPathExists E m = (existsSync E (localFilePath E m), m)).
  { intros m. unfold localPathExists. rewrite Hoff. reflexivity. }
  rewrite (contextValue_table_canonical_only E n Hoff).
  unfold tooltip, getIconPath. rewrite Hinit. cbn [negb].
  repeat (rewrite ?seq_eq, ?andR_eq, ?notR_eq, ?Hread; cbv zeta;
          cbn [fst snd pure const]).
  destruct (existsSync E (localFilePath E n)) eqn:X;
    destruct (onlinePathExists n) eqn:O;
    repeat (rewrite ?seq_eq, ?andR_eq, ?notR_eq, ?Hread, ?X, ?O; cbv zeta;
            cbn [fst snd pure const negb]; rewrite ?X, ?O);
    rewrite ?append_assoc; reflexivity.
Qed.

End CanonicalPresentation.

(* ================================================================= *)
(** ** Instances *)

(** X1 at the node [/Users/a/nb], bound to [.py], read once [nb.ipynb] is
    on disk: the read rebinds the mapping to that of [.ipynb] and keeps the
    rest. *)
Lemma accessors_only_rebind_witness :
  Notebook._path (snd (Notebook.localPathExists Scenario.hostAnyExtension
                         (Scenario.userNotebook Scenario.hostNothingYet)))
  = "/Users/a/nb" /\
  Notebook._languageFileExtension
    (snd (Notebook.localPathExists Scenario.hostAnyExtension
            (Scenario.userNotebook Scenario.hostNothingYet)))
  = Some (Scenario.mapperOf ".ipynb").
Proof.
  pose proof (accessors_only_rebind Scenario.hostAnyExtension
                (Scenario.userNotebook Scenario.hostNothingYet) "light"
                (snd (Notebook.localPathExists Scenario.hostAnyExtension
                        (Scenario.userNotebook Scenario.hostNothingYet)))
                (or_introl eq_refl)) as (HP & _).
  split; [exact HP | reflexivity].
Defined.

(** X8 at [/Users/a/nb], bound to [.py]: with the fetch fulfilled, and
    with the fetch rejected. *)
Lemma compare_traces_witness :
  Notebook.compare Scenario.hostCanonical
    (Scenario.userNotebook Scenario.hostCanonical) []
  = (Act.Normal tt,
     [OpenTempFile "" "nb-ONLINE" false;
      DownloadWorkspaceItem "/Users/a/nb" "/tmp/nb-ONLINE.py" "SOURCE";
      ShowInformationMessage "Download of item /Users/a/nb) finished!";
      ShowDiff (Some "/tmp/nb-ONLINE.py") "/sync/Workspace/Users/a/nb.py"])
  /\
  Notebook.compare Scenario.hostFetchRejected
    (Scenario.userNotebook Scenario.hostCanonical) []
  = (Act.Normal tt,
     [OpenTempFile "" "nb-ONLINE" false;
      DownloadWorkspaceItem "/Users/a/nb" "/tmp/nb-ONLINE.py" "SOURCE";
      ShowErrorMessage "ERROR: HTTP 500";
      ShowDiff None "/sync/Workspace/Users/a/nb.py"]).
Proof.
  split.
  - exact (proj1 (compare_traces Scenario.hostCanonical
                    (Scenario.userNotebook Scenario.hostCanonical)
                    (Scenario.mapperOf ".py") "/tmp/nb-ONLINE" []
                    eq_refl eq_refl eq_refl) eq_refl).
  - exact (proj2 (compare_traces Scenario.hostFetchRejected
                    (Scenario.userNotebook Scenario.hostCanonical)
                    (Scenario.mapperOf ".py") "/tmp/nb-ONLINE" []
                    eq_refl eq_refl eq_refl) "HTTP 500" (or_introl eq_refl)).
Defined.

(** X9 at [/Users/a/nb] when no temporary file can be opened. *)
Lemma download_without_temp_file_witness :
  Notebook.download Scenario.hostNoTempFile
    (Scenario.userNotebook Scenario.hostCanonical) true []
  = (Act.Normal None,
     [OpenTempFile "" "nb-ONLINE" false; ShowErrorMessage "ERROR: EACCES"]).
Proof.
  exact (download_without_temp_file Scenario.hostNoTempFile
           (Scenario.userNotebook Scenario.hostCanonical) "EACCES" []
           (or_introl eq_refl)).
Defined.

(** X13 at [/Users/a/nb], bound to [.py]. *)
Lemma localFilePath_in_folder_witness :
  Notebook.localFilePath Scenario.hostCanonical
    (Scenario.userNotebook Scenario.hostCanonical)
  = "/sync/Workspace/Users/a/" ++ "nb" ++ ".py"
  /\
  fspath.basename
    (Notebook.localFilePath Scenario.hostCanonical
       (Scenario.userNotebook Scenario.hostCanonical))
  = "nb" ++ ".py".
Proof.
  exact (localFilePath_in_folder Scenario.hostCanonical
           (Scenario.userNotebook Scenario.hostCanonical) eq_refl).
Defined.

(** X14 at the node [/Users/a/nb], bound to [.py], once [nb.ipynb] is on
    disk. *)
Lemma localPathExists_probed_file_witness :
  In (Notebook.localFileExtension Scenario.hostAnyExtension
        (snd (Notebook.localPathExists Scenario.hostAnyExtension
                (Scenario.userNotebook Scenario.hostNothingYet))))
     [".py"; ".ipynb"] /\
  existsSync Scenario.hostAnyExtension
    (Notebook.localFilePath Scenario.hostAnyExtension
       (snd (Notebook.localPathExists Scenario.hostAnyExtension
               (Scenario.userNotebook Scenario.hostNothingYet)))) = true /\
  fst (Notebook.localPathExists Scenario.hostAnyExtension
         (snd (Notebook.localPathExists Scenario.hostAnyExtension
                 (Scenario.userNotebook Scenario.hostNothingYet)))) = true.
Proof.
  apply (localPathExists_probed_file Scenario.hostAnyExtension
           (Scenario.userNotebook Scenario.hostNothingYet)).
  - reflexivity.
  - intros ext [H | [H | []]]; subst ext; repeat split.
  - reflexivity.
  - intros j Hj. change (j + 3 < 29) in Hj.
    repeat (destruct j as [|j]; [vm_compute; reflexivity|]).
    exfalso. lia.
  - reflexivity.
Defined.

(** X16 at [/Users/a/nb] with [nb.py] on disk: synced on all three. *)
Lemma presentation_canonical_only_witness :
  (Notebook.contextValue Scenario.hostCanonical
     (Scenario.userNotebook Scenario.hostCanonical),
   Notebook.tooltip Scenario.hostCanonical
     (Scenario.userNotebook Scenario.hostCanonical),
   Notebook.getIconPath Scenario.hostCanonical "dark"
     (Scenario.userNotebook Scenario.hostCanonical))
  = ((Some "CAN_SYNC", Scenario.userNotebook Scenario.hostCanonical),
     ("/Users/a/nb" ++ Str.newline ++ "[Synced]" ++ Str.newline,
      Scenario.userNotebook Scenario.hostCanonical),
     (Some "/ext/resources/dark/workspace/notebook.png",
      Scenario.userNotebook Scenario.hostCanonical)).
Proof.
  exact (presentation_canonical_only Scenario.hostCanonical
           (Scenario.userNotebook Scenario.hostCanonical) "dark" eq_refl eq_refl).
Defined.
